(** * Commission platform: rule store, validator and batch metrics

    A shallow embedding of [src/managers.py], [src/validators.py],
    [calculate_metrics] of [src/analyzers.py] and the validation loop of
    [src/app.py], and the properties of the rule store and of the
    validation engine proved over it.

    - Python [float] is IEEE binary64: Rocq's primitive [float].
    - Python [int] is unbounded: [Z].
    - Python [str] is a sequence of Unicode code points: [list N].
    - A Python [dict] keeps insertion order: an association list.
    - [st.session_state] is threaded explicitly; a Python exception is a
      [Raise] result. *)

From Stdlib Require Import ZArith NArith List String Ascii Bool Lia.
From Stdlib Require Import Permutation.
From Stdlib Require Import PrimFloat FloatOps SpecFloat FloatAxioms.
From Stdlib Require Import DecimalString.
Import ListNotations.

#[local] Set Warnings "-inexact-float".
#[local] Open Scope float_scope.
#[local] Open Scope list_scope.

(* ================================================================= *)
(** ** Python values *)

Module Py.

(** A [str]: its code points, in order. *)
Definition str := list N.

(** An ASCII literal of the source, as a [str]. *)
Definition lit (s : string) : str :=
  map N_of_ascii (list_ascii_of_string s).

Fixpoint str_eqb (a b : str) : bool :=
  match a, b with
  | [], [] => true
  | x :: a', y :: b' => N.eqb x y && str_eqb a' b'
  | _, _ => false
  end.

(** [str.isspace] on one code point (CPython's [_PyUnicode_IsWhitespace]). *)
Definition isspace (c : N) : bool :=
  ((9 <=? c) && (c <=? 13) || (28 <=? c) && (c <=? 32)
   || (c =? 133) || (c =? 160) || (c =? 5760)
   || (8192 <=? c) && (c <=? 8202)
   || (c =? 8232) || (c =? 8233) || (c =? 8239) || (c =? 8287)
   || (c =? 12288))%N.

Fixpoint lstrip (s : str) : str :=
  match s with
  | [] => []
  | c :: r => if isspace c then lstrip r else s
  end.

Definition rstrip (s : str) : str := rev (lstrip (rev s)).

(** [s.strip()] with no argument. *)
Definition strip (s : str) : str := rstrip (lstrip s).

(** Truth value of a [str]: non-empty. *)
Definition truthy (s : str) : bool :=
  match s with [] => false | _ :: _ => true end.

(** A [dict] with [str] keys, in insertion order. *)
Definition dict (V : Type) := list (str * V).

Section Dict.
Context {V : Type}.

Definition keys (d : dict V) : list str := map fst d.

(** [k in d] *)
Fixpoint dict_mem (k : str) (d : dict V) : bool :=
  match d with
  | [] => false
  | (k', _) :: r => str_eqb k' k || dict_mem k r
  end.

(** [d[k]]; [None] is a KeyError. *)
Fixpoint dict_get (k : str) (d : dict V) : option V :=
  match d with
  | [] => None
  | (k', v) :: r => if str_eqb k' k then Some v else dict_get k r
  end.

(** [d[k] = v]: overwrite in place, or append a new entry. *)
Fixpoint dict_set (k : str) (v : V) (d : dict V) : dict V :=
  match d with
  | [] => [(k, v)]
  | (k', v') :: r =>
      if str_eqb k' k then (k', v) :: r else (k', v') :: dict_set k v r
  end.

(** [del d[k]] on a present key. *)
Fixpoint dict_del (k : str) (d : dict V) : dict V :=
  match d with
  | [] => []
  | (k', v') :: r =>
      if str_eqb k' k then r else (k', v') :: dict_del k r
  end.

(** [len(d)] *)
Definition len (d : dict V) : nat := List.length d.
End Dict.

(** Exceptions the modelled code can raise. *)
Inductive exn : Type :=
| KeyError (k : str)
| AttributeError
| OverflowError.

Inductive result (A : Type) : Type :=
| Ok (a : A)
| Raise (e : exn).
Arguments Ok {A} a.
Arguments Raise {A} e.

(** [int] to [float], as in [int * float]: round to nearest even;
    "int too large to convert to float" when the result is not finite. *)
Definition float_of_int (z : Z) : result float :=
  match binary_normalize prec emax z 0 false with
  | S754_infinity _ => Raise OverflowError
  | sf => Ok (SF2Prim sf)
  end.

(** [a > b] on floats; false when either side is a NaN. *)
Definition gt (a b : float) : bool := (b <? a).

(** Decimal digits of a natural number. *)
Definition digits (n : N) : str :=
  lit (NilZero.string_of_uint (N.to_uint n)).

(** The nearest integer to [m * 2^e], ties to even. *)
Definition round_half_even (m : Z) (e : Z) : Z :=
  if (0 <=? e)%Z then (m * 2 ^ e)%Z
  else
    let d := (2 ^ (- e))%Z in
    let q := (m / d)%Z in
    let r := (m mod d)%Z in
    if (d <? 2 * r)%Z then (q + 1)%Z
    else if (2 * r =? d)%Z && Z.odd q then (q + 1)%Z
    else q.

Definition sign_str (s : bool) : str := if s then lit "-" else [].

Definition pad3 (n : N) : str :=
  let d := digits n in
  repeat 48%N (3 - List.length d) ++ d.

(** [f"{x:.3f}"]: three digits after the point, correctly rounded. *)
Definition format_3f (x : float) : str :=
  match Prim2SF x with
  | S754_nan => lit "nan"
  | S754_infinity s => sign_str s ++ lit "inf"
  | S754_zero s => sign_str s ++ lit "0.000"
  | S754_finite s m e =>
      let n := Z.to_N (round_half_even (Zpos m * 1000) e) in
      sign_str s ++ digits (n / 1000) ++ lit "." ++ pad3 (n mod 1000)
  end.

End Py.
Import Py.

(* ================================================================= *)
(** ** Session state and the monad of the methods *)

(** One tier's policy: [{'rate': ..., 'threshold': ...}]. *)
Record policy : Type := { rate : float; threshold : Z }.

(** [st.session_state]: the only entry the code uses is
    [commission_rules], which may be absent. *)
Record session_state : Type :=
  { commission_rules : option (dict policy) }.

(** A method: reads and writes the session state, returns or raises. *)
Definition M (A : Type) : Type := session_state -> result A * session_state.

Definition ret {A} (a : A) : M A := fun s => (Ok a, s).

Definition bind {A B} (m : M A) (k : A -> M B) : M B :=
  fun s =>
    match m s with
    | (Ok a, s') => k a s'
    | (Raise e, s') => (Raise e, s')
    end.

Definition raise {A} (e : exn) : M A := fun s => (Raise e, s).

Definition lift {A} (r : result A) : M A := fun s => (r, s).

Declare Scope py_scope.
Delimit Scope py_scope with py.
Notation "x <- m ;; k" := (bind m (fun x => k))
  (at level 61, m at next level, right associativity) : py_scope.
Notation "m ;;; k" := (bind m (fun _ => k))
  (at level 61, right associativity) : py_scope.
#[local] Open Scope py_scope.

(** [st.session_state.commission_rules] *)
Definition read_rules : M (dict policy) :=
  fun s =>
    match commission_rules s with
    | Some r => (Ok r, s)
    | None => (Raise AttributeError, s)
    end.

(** [st.session_state.commission_rules = r], and in-place updates of it. *)
Definition write_rules (r : dict policy) : M unit :=
  fun _ => (Ok tt, {| commission_rules := Some r |}).

(** ['commission_rules' in st.session_state] *)
Definition has_rules : M bool :=
  fun s =>
    (Ok (match commission_rules s with Some _ => true | None => false end), s).

(* ================================================================= *)
(** ** [src/managers.py]: class [RulesManager] *)

Module managers.

(** The mapping seeded by [_initialize_rules]. *)
Definition default_rules : dict policy :=
  [ (lit "standard",   {| rate := 0.05; threshold := 0 |});
    (lit "premium",    {| rate := 0.07; threshold := 100000 |});
    (lit "enterprise", {| rate := 0.10; threshold := 500000 |}) ].

(** The two marks that open the messages: U+2705 and U+274C. *)
Definition check_mark : str := [9989%N].
Definition cross_mark : str := [10060%N].

Definition msg_added (tier_name : str) : str :=
  check_mark ++ lit " Successfully added '" ++ tier_name ++ lit "' tier!".
Definition msg_no_name : str :=
  cross_mark ++ lit " Please enter a tier name!".
Definition msg_exists (tier_name : str) : str :=
  cross_mark ++ lit " Rule '" ++ tier_name ++ lit "' already exists!".
Definition msg_removed (tier_name : str) : str :=
  check_mark ++ lit " Successfully removed '" ++ tier_name ++ lit "' tier!".
Definition msg_not_found (tier_name : str) : str :=
  cross_mark ++ lit " Rule '" ++ tier_name ++ lit "' not found!".
Definition msg_last_rule : str :=
  cross_mark
  ++ lit " Cannot remove the last rule! You need at least one commission tier.".

Definition _initialize_rules : M unit :=
  present <- has_rules ;;
  if negb present then write_rules default_rules else ret tt.

Definition get_rules : M (dict policy) := read_rules.

(** [rate] and [threshold] arrive as a [float] and an [int] (the two
    number inputs of the settings form), on which [float(rate)] and
    [int(threshold)] return their argument. *)
Definition add_rule (tier_name : str) (rate : float) (threshold : Z)
  : M (bool * str) :=
  (* [tier_name.strip() and tier_name not in ...]: the right operand is
     evaluated only when the left one is true *)
  cond <- (if truthy (strip tier_name)
           then rules <- read_rules ;; ret (negb (dict_mem tier_name rules))
           else ret false) ;;
  if cond then
    rules <- read_rules ;;
    write_rules
      (dict_set tier_name {| rate := rate; threshold := threshold |} rules) ;;;
    ret (true, msg_added tier_name)
  else if negb (truthy (strip tier_name)) then
    ret (false, msg_no_name)
  else
    ret (false, msg_exists tier_name).

Definition remove_rule (tier_name : str) : M (bool * str) :=
  rules <- get_rules ;;
  if (1 <? len rules)%nat then
    if dict_mem tier_name rules then
      rules' <- read_rules ;;
      write_rules (dict_del tier_name rules') ;;;
      ret (true, msg_removed tier_name)
    else
      ret (false, msg_not_found tier_name)
  else
    ret (false, msg_last_rule).

Definition get_rules_list : M (list str) :=
  rules <- get_rules ;; ret (keys rules).

(** [RulesManager()]: the constructor runs the initialization. *)
Definition __init__ : M unit := _initialize_rules.

End managers.

(* ================================================================= *)
(** ** [src/validators.py]: class [CommissionValidator] *)

(** One row of the deals table. The numeric columns are float64, as
    [generators.py] produces them. *)
Record row : Type :=
  { deal_id : str;
    sales_rep : str;
    region : str;
    product_tier : str;
    deal_size : float;
    commission_rate : float;
    commission_amount : float }.

Module validators.

Definition msg_unknown_tier (tier : str) : str :=
  lit "Unknown product tier: " ++ tier.
Definition msg_rate_mismatch (expected_rate actual : float) : str :=
  lit "Rate mismatch: expected " ++ format_3f expected_rate
  ++ lit ", got " ++ format_3f actual.
Definition msg_cap : str := lit "Commission exceeds 15% cap".
Definition msg_negative : str := lit "Negative deal size".

(** [rules[k]], raising [KeyError] on an absent key. *)
Definition subscript (rules : dict policy) (k : str) : M policy :=
  match dict_get k rules with
  | Some p => ret p
  | None => raise (KeyError k)
  end.

Definition _get_expected_rate (deal_size : float) (product_tier : str)
  : M float :=
  rules <- managers.get_rules ;;
  p <- subscript rules product_tier ;;
  let base_rate := rate p in
  p' <- subscript rules product_tier ;;
  t <- lift (float_of_int (threshold p')) ;;
  if gt deal_size (t * 1.2) then ret (base_rate * 1.1)
  else ret base_rate.

Definition validate (r : row) : M (list str) :=
  let issues : list str := [] in
  rules <- managers.get_rules ;;
  if negb (dict_mem (product_tier r) rules) then
    let issues := issues ++ [msg_unknown_tier (product_tier r)] in
    ret issues
  else
    expected_rate <- _get_expected_rate (deal_size r) (product_tier r) ;;
    let issues :=
      if gt (abs (commission_rate r - expected_rate)) 0.001
      then issues ++ [msg_rate_mismatch expected_rate (commission_rate r)]
      else issues in
    let issues :=
      if gt (commission_amount r) (deal_size r * 0.15)
      then issues ++ [msg_cap]
      else issues in
    let issues :=
      if (deal_size r <? 0) then issues ++ [msg_negative] else issues in
    ret issues.

End validators.

(* ================================================================= *)
(** ** [src/analyzers.py]: [DataAnalyzer.calculate_metrics] *)

Record metrics : Type :=
  { total_commissions : float;
    average_rate : float;
    total_deals : nat;
    flagged_count : nat }.

Module analyzers.

Section Pandas.
(** [Series.sum] and [Series.mean] of pandas, on a float column. *)
Variable Series_sum : list float -> float.
Variable Series_mean : list float -> float.

(** [[issue for row in df.iterrows() for issue in validate(row[1])]] *)
Fixpoint all_issues (df : list row) : M (list str) :=
  match df with
  | [] => ret []
  | r :: rest =>
      issues <- validators.validate r ;;
      more <- all_issues rest ;;
      ret (issues ++ more)
  end.

Definition calculate_metrics (df : list row) : M metrics :=
  let total_commissions := Series_sum (map commission_amount df) in
  let average_rate := Series_mean (map commission_rate df) in
  let total_deals := List.length df in
  flagged <- all_issues df ;;
  let flagged_count := List.length flagged in
  ret {| total_commissions := total_commissions;
         average_rate := average_rate;
         total_deals := total_deals;
         flagged_count := flagged_count |}.
End Pandas.

End analyzers.

(* ================================================================= *)
(** ** [src/app.py]: the pass/fail status of the validation tab *)

Module app.

Inductive status : Type := PASS | FAIL.

(** ['PASS' if len(issues) == 0 else 'FAIL'] *)
Definition status_of (issues : list str) : status :=
  if (List.length issues =? 0)%nat then PASS else FAIL.

End app.

(* ================================================================= *)
(** ** Sequences of rule-store operations *)

Inductive op : Type :=
| AddRule (tier_name : str) (rate : float) (threshold : Z)
| RemoveRule (tier_name : str).

(** One call; its returned pair is dropped, an exception propagates. *)
Definition run_op (o : op) : M unit :=
  match o with
  | AddRule n r t => managers.add_rule n r t ;;; ret tt
  | RemoveRule n => managers.remove_rule n ;;; ret tt
  end.

Fixpoint run_ops (ops : list op) : M unit :=
  match ops with
  | [] => ret tt
  | o :: rest => run_op o ;;; run_ops rest
  end.

(* ================================================================= *)
(** ** The vocabulary of the specification *)

(** A tier name that is empty or made of whitespace only. *)
Definition blank (s : str) : bool := forallb isspace s.

(** The representation invariant of a [dict]: every key occurs once. *)
Definition unique_keys {V} (d : dict V) : Prop := NoDup (keys d).

(** The policy-set invariant: at least one tier, no name twice. *)
Definition policy_invariant (rules : dict policy) : Prop :=
  rules <> [] /\ unique_keys rules.

(** The session holds the policy set [rules]. *)
Definition holds (s : session_state) (rules : dict policy) : Prop :=
  commission_rules s = Some rules.

(** The three checks of [validate] on a record of a known tier, given
    the expected rate [e]. *)
Definition rate_mismatch (r : row) (e : float) : bool :=
  gt (abs (commission_rate r - e)) 0.001.
Definition over_cap (r : row) : bool :=
  gt (commission_amount r) (deal_size r * 0.15).
Definition negative_deal (r : row) : bool := (deal_size r <? 0).

(** The issues the specification lists for a known tier, in its order. *)
Definition expected_issues (r : row) (e : float) : list str :=
  (if rate_mismatch r e
   then [validators.msg_rate_mismatch e (commission_rate r)] else [])
  ++ (if over_cap r then [validators.msg_cap] else [])
  ++ (if negative_deal r then [validators.msg_negative] else []).

(** A session before the first [RulesManager()], and right after it. *)
Definition fresh_session : session_state := {| commission_rules := None |}.
Definition seeded_session : session_state :=
  {| commission_rules := Some managers.default_rules |}.

(** A policy set with the tier of the accelerator-boundary scenario. *)
Definition boundary_rules : dict policy :=
  [ (lit "premium", {| rate := 0.05; threshold := 100000 |}) ].
Definition boundary_session : session_state :=
  {| commission_rules := Some boundary_rules |}.

(** A record of tier [tier] with the given figures. *)
Definition deal (tier : str) (size rate_applied amount : float) : row :=
  {| deal_id := lit "DEAL_0001";
     sales_rep := lit "Sarah Chen";
     region := lit "Europe";
     product_tier := tier;
     deal_size := size;
     commission_rate := rate_applied;
     commission_amount := amount |}.

(** A finite float, the case in which [format_3f] prints digits. *)
Definition is_finite (x : float) : bool :=
  match Prim2SF x with
  | S754_zero _ | S754_finite _ _ _ => true
  | _ => false
  end.

Definition is_digit (c : N) : bool := ((48 <=? c) && (c <=? 57))%N.

(** Every threshold of the policy set is below [2^1023] in magnitude. *)
Definition thresholds_in_range (rules : dict policy) : Prop :=
  forall k p, dict_get k rules = Some p -> (Z.abs (threshold p) < 2 ^ 1023)%Z.

(** No tier name of the policy set is blank. *)
Definition no_blank_key (rules : dict policy) : Prop :=
  forall k, In k (keys rules) -> blank k = false.


(** Total number of issues. *)
Definition issue_total (issues : list (list str)) : nat :=
  list_sum (map (@List.length str) issues).

(* ================================================================= *)
(** ** [src/app.py]: the table built by [render_validation_tab] *)

Module tabs.

(** One entry of [validation_results]. *)
Record validation_result : Type :=
  { res_deal_id : str;
    res_sales_rep : str;
    res_deal_size : float;
    res_commission_amount : float;
    res_issues : list str;
    res_issue_count : nat;
    res_status : app.status }.

(** The loop of [render_validation_tab]: one entry per row, in order. *)
Fixpoint render_validation_tab (df : list row) : M (list validation_result) :=
  match df with
  | [] => ret []
  | r :: rest =>
      issues <- validators.validate r ;;
      let entry :=
        {| res_deal_id := deal_id r;
           res_sales_rep := sales_rep r;
           res_deal_size := deal_size r;
           res_commission_amount := commission_amount r;
           res_issues := issues;
           res_issue_count := List.length issues;
           res_status := app.status_of issues |} in
      validation_results <- render_validation_tab rest ;;
      ret (entry :: validation_results)
  end.

End tabs.

(* ================================================================= *)
(** ** More vocabulary *)

(** A method that leaves the session state as it found it, whether it
    returns or raises. *)
Definition read_only {A} (m : M A) : Prop := forall s, snd (m s) = s.

(** Number of entries of the validation table with status FAIL. *)
Definition fail_rows (t : list tabs.validation_result) : nat :=
  List.length
    (filter (fun e => match tabs.res_status e with
                      | app.FAIL => true
                      | app.PASS => false
                      end) t).

(** [l] without the name [k]. *)
Definition without (k : str) (l : list str) : list str :=
  filter (fun k' => negb (str_eqb k' k)) l.

(** The issues [validate] returns for [r] on session [s]; empty when it
    raises. *)
Definition issues_at (s : session_state) (r : row) : list str :=
  match fst (validators.validate r s) with
  | Ok issues => issues
  | Raise _ => []
  end.

(** [validate] returns on [r]. *)
Definition validates (s : session_state) (r : row) : Prop :=
  exists issues, validators.validate r s = (Ok issues, s).

(** [validate] raises [OverflowError] on [r]. *)
Definition overflows (s : session_state) (r : row) : Prop :=
  validators.validate r s = (Raise OverflowError, s).

(** The entry of the validation table for [r] on session [s]. *)
Definition entry_of (s : session_state) (r : row) : tabs.validation_result :=
  {| tabs.res_deal_id := deal_id r;
     tabs.res_sales_rep := sales_rep r;
     tabs.res_deal_size := deal_size r;
     tabs.res_commission_amount := commission_amount r;
     tabs.res_issues := issues_at s r;
     tabs.res_issue_count := List.length (issues_at s r);
     tabs.res_status := app.status_of (issues_at s r) |}.

(** The seeded session after [add_rule('gold', 0.08, 2**1024)]: the
    threshold of the new tier does not convert to a float. *)
Definition huge_threshold_session : session_state :=
  snd (managers.add_rule (lit "gold") 0.08 (2 ^ 1024) seeded_session).

(* ================================================================= *)
(** ** Strings *)

Lemma str_eqb_refl (a : str) : str_eqb a a = true.
Proof.
  induction a as [|x a IH]; simpl; [reflexivity|].
  now rewrite N.eqb_refl.
Qed.

Lemma str_eqb_eq (a b : str) : str_eqb a b = true <-> a = b.
Proof.
  split; [|intros ->; apply str_eqb_refl].
  revert b; induction a as [|x a IH]; intros [|y b]; simpl; try discriminate; auto.
  intros H. apply andb_true_iff in H as [Hx Hr].
  apply N.eqb_eq in Hx. f_equal; auto.
Qed.

Lemma str_eqb_neq (a b : str) : str_eqb a b = false <-> a <> b.
Proof.
  rewrite <- str_eqb_eq. destruct (str_eqb a b); split; congruence.
Qed.

Lemma lstrip_blank (s : str) : lstrip s = [] <-> blank s = true.
Proof.
  unfold blank. induction s as [|c s IH]; simpl; [tauto|].
  destruct (isspace c); simpl; [exact IH|]. split; discriminate.
Qed.

Lemma lstrip_head (s : str) :
  lstrip s = [] \/ exists c r, lstrip s = c :: r /\ isspace c = false.
Proof.
  induction s as [|c s IH]; simpl; [now left|].
  destruct (isspace c) eqn:E; [exact IH|]. right; eauto.
Qed.

Lemma blank_rev (s : str) : blank (rev s) = blank s.
Proof.
  unfold blank. apply eq_true_iff_eq. rewrite !forallb_forall.
  split; intros H x Hx; apply H; [apply in_rev in Hx | apply in_rev]; auto.
Qed.

Lemma blank_lstrip (s : str) : blank (lstrip s) = blank s.
Proof.
  unfold blank. induction s as [|c s IH]; simpl; [reflexivity|].
  destruct (isspace c) eqn:E; simpl; [exact IH | now rewrite E].
Qed.

(** [tier_name.strip()] is empty exactly on blank names. *)
Lemma strip_blank (s : str) : strip s = [] <-> blank s = true.
Proof.
  unfold strip, rstrip. split.
  - intros H. apply (f_equal (@rev N)) in H. rewrite rev_involutive in H.
    simpl in H. apply lstrip_blank in H.
    rewrite blank_rev, blank_lstrip in H. exact H.
  - intros H. apply lstrip_blank in H. rewrite H. reflexivity.
Qed.

Lemma truthy_strip (s : str) : truthy (strip s) = negb (blank s).
Proof.
  destruct (blank s) eqn:E.
  - apply strip_blank in E. now rewrite E.
  - destruct (strip s) eqn:S; [|reflexivity].
    apply strip_blank in S. congruence.
Qed.

(* ================================================================= *)
(** ** Dictionaries *)

Section DictFacts.
Context {V : Type}.
Implicit Types (d : dict V) (k : str) (v : V).

Lemma dict_mem_In k d : dict_mem k d = true <-> In k (keys d).
Proof.
  induction d as [|[k' v'] d IH]; simpl; [split; [discriminate|tauto]|].
  rewrite orb_true_iff, str_eqb_eq, IH. tauto.
Qed.

Lemma dict_mem_not_In k d : dict_mem k d = false <-> ~ In k (keys d).
Proof.
  rewrite <- dict_mem_In. destruct (dict_mem k d); split; congruence.
Qed.

Lemma dict_get_mem k d :
  dict_mem k d = true <-> exists v, dict_get k d = Some v.
Proof.
  induction d as [|[k' v'] d IH]; simpl.
  - split; [discriminate | intros [v H]; discriminate].
  - destruct (str_eqb k' k); simpl; [split; eauto | exact IH].
Qed.

Lemma dict_get_None k d : dict_mem k d = false <-> dict_get k d = None.
Proof.
  induction d as [|[k' v'] d IH]; simpl; [tauto|].
  destruct (str_eqb k' k); simpl; [split; discriminate | exact IH].
Qed.

Lemma keys_dict_set k v d :
  keys (dict_set k v d) = if dict_mem k d then keys d else keys d ++ [k].
Proof.
  induction d as [|[k' v'] d IH]; simpl; [reflexivity|].
  destruct (str_eqb k' k) eqn:E; simpl; [reflexivity|].
  rewrite IH. now destruct (dict_mem k d).
Qed.

Lemma dict_get_set_same k v d : dict_get k (dict_set k v d) = Some v.
Proof.
  induction d as [|[k' v'] d IH]; simpl.
  - now rewrite str_eqb_refl.
  - destruct (str_eqb k' k) eqn:E; simpl; rewrite E; auto.
Qed.

Lemma dict_get_set_other k k' v d :
  k' <> k -> dict_get k' (dict_set k v d) = dict_get k' d.
Proof.
  intros Hne. induction d as [|[k0 v0] d IH]; simpl.
  - apply not_eq_sym, str_eqb_neq in Hne. now rewrite Hne.
  - destruct (str_eqb k0 k) eqn:E; simpl.
    + apply str_eqb_eq in E. subst k0.
      apply not_eq_sym, str_eqb_neq in Hne. now rewrite Hne.
    + now rewrite IH.
Qed.

Lemma unique_keys_set k v d : unique_keys d -> unique_keys (dict_set k v d).
Proof.
  unfold unique_keys. intros H. rewrite keys_dict_set.
  destruct (dict_mem k d) eqn:E; [exact H|].
  apply dict_mem_not_In in E.
  apply NoDup_rev in H. rewrite <- (rev_involutive (keys d ++ [k])).
  apply NoDup_rev. rewrite rev_app_distr. simpl.
  constructor; [now rewrite <- in_rev | exact H].
Qed.

Lemma dict_set_nonempty k v d : dict_set k v d <> [].
Proof. destruct d as [|[k' v'] d]; simpl; [|destruct (str_eqb k' k)]; discriminate. Qed.

Lemma keys_dict_del_incl k k' d : In k' (keys (dict_del k d)) -> In k' (keys d).
Proof.
  induction d as [|[k0 v0] d IH]; simpl; [tauto|].
  destruct (str_eqb k0 k); simpl; tauto.
Qed.

Lemma unique_keys_del k d : unique_keys d -> unique_keys (dict_del k d).
Proof.
  unfold unique_keys. induction d as [|[k0 v0] d IH]; simpl; [auto|].
  intros H. inversion H as [|? ? Hnin Hnd]; subst.
  destruct (str_eqb k0 k); simpl; [exact Hnd|].
  constructor; [|auto]. intros Hin. apply Hnin. eapply keys_dict_del_incl; eauto.
Qed.

Lemma length_dict_del k d :
  dict_mem k d = true -> S (List.length (dict_del k d)) = List.length d.
Proof.
  induction d as [|[k0 v0] d IH]; simpl; [discriminate|].
  destruct (str_eqb k0 k); simpl; [reflexivity|].
  intros H. now rewrite IH.
Qed.

Lemma dict_mem_del_same k d :
  unique_keys d -> dict_mem k (dict_del k d) = false.
Proof.
  unfold unique_keys. induction d as [|[k0 v0] d IH]; simpl; [reflexivity|].
  intros H. inversion H as [|? ? Hnin Hnd]; subst.
  destruct (str_eqb k0 k) eqn:E; simpl.
  - apply str_eqb_eq in E. subst k0. now apply dict_mem_not_In.
  - rewrite E. simpl. auto.
Qed.

Lemma dict_get_del_other k k' d :
  k' <> k -> dict_get k' (dict_del k d) = dict_get k' d.
Proof.
  intros Hne. induction d as [|[k0 v0] d IH]; simpl; [reflexivity|].
  destruct (str_eqb k0 k) eqn:E; simpl.
  - apply str_eqb_eq in E. subst k0.
    apply not_eq_sym, str_eqb_neq in Hne. now rewrite Hne.
  - now rewrite IH.
Qed.
End DictFacts.

(* ================================================================= *)
(** ** Conversion of an [int] to a [float]

    The conversion raises only when the rounded value is not finite; an
    integer below [2^1023] in magnitude always converts. The proof follows
    the two shifts and the rounding of [binary_normalize] and counts
    binary digits. *)

Lemma digits2_pos_succ (p : positive) :
  (Zpos (digits2_pos (Pos.succ p)) <= Zpos (digits2_pos p) + 1)%Z.
Proof.
  induction p as [p IH|p IH|]; cbn [Pos.succ digits2_pos];
    rewrite ?Pos2Z.inj_succ; lia.
Qed.

Lemma Zdigits2_round (m : Z) (l : location) :
  (0 <= m)%Z ->
  (0 <= round_nearest_even m l
   /\ Zdigits2 (round_nearest_even m l) <= Zdigits2 m + 1)%Z.
Proof.
  intros Hm.
  assert (Hs : (0 <= m + 1 /\ Zdigits2 (m + 1) <= Zdigits2 m + 1)%Z).
  { destruct m as [|p|p]; [simpl; lia | | lia].
    replace (Z.pos p + 1)%Z with (Z.pos (Pos.succ p)) by lia.
    cbn [Zdigits2]. split; [lia | apply digits2_pos_succ]. }
  assert (H0 : (Zdigits2 m <= Zdigits2 m + 1)%Z) by lia.
  destruct l as [|[| |]]; simpl; try (split; [assumption | lia]).
  - destruct (Z.even m); [split; [assumption | lia] | exact Hs].
  - exact Hs.
Qed.

Lemma Zdigits2_shr_1 (mrs : shr_record) :
  (0 <= shr_m mrs)%Z ->
  (0 <= shr_m (shr_1 mrs)
   /\ Zdigits2 (shr_m (shr_1 mrs)) = Z.max 0 (Zdigits2 (shr_m mrs) - 1))%Z.
Proof.
  destruct mrs as [m r s]. cbn [shr_m]. intros Hm.
  destruct m as [|[p|p|]|p]; cbn [shr_1 shr_m Zdigits2 digits2_pos];
    rewrite ?Pos2Z.inj_succ; lia.
Qed.

Lemma Zdigits2_iter_shr_1 (p : positive) (mrs : shr_record) :
  (0 <= shr_m mrs)%Z ->
  (0 <= shr_m (iter_pos shr_1 p mrs)
   /\ Zdigits2 (shr_m (iter_pos shr_1 p mrs))
      = Z.max 0 (Zdigits2 (shr_m mrs) - Zpos p))%Z.
Proof.
  revert mrs. induction p as [p IH|p IH|]; intros mrs Hm; cbn [iter_pos].
  - destruct (Zdigits2_shr_1 mrs Hm) as [H1 E1].
    destruct (IH _ H1) as [H2 E2]. destruct (IH _ H2) as [H3 E3].
    split; [exact H3|]. rewrite E3, E2, E1. lia.
  - destruct (IH _ Hm) as [H2 E2]. destruct (IH _ H2) as [H3 E3].
    split; [exact H3|]. rewrite E3, E2. lia.
  - apply Zdigits2_shr_1, Hm.
Qed.

Lemma digits2_pos_iter_xO (d p : positive) :
  Zpos (digits2_pos (Pos.iter xO p d)) = (Zpos (digits2_pos p) + Zpos d)%Z.
Proof.
  induction d as [|d IH] using Pos.peano_ind.
  - cbn [Pos.iter digits2_pos]. rewrite Pos2Z.inj_succ. lia.
  - rewrite Pos.iter_succ. cbn [digits2_pos].
    rewrite !Pos2Z.inj_succ, IH. lia.
Qed.

Lemma digits2_pos_bound (p : positive) (n : Z) :
  (0 <= n)%Z -> (Zpos p < 2 ^ n)%Z -> (Zpos (digits2_pos p) <= n)%Z.
Proof.
  revert n. induction p as [p IH|p IH|]; intros n Hn Hp; cbn [digits2_pos];
    rewrite ?Pos2Z.inj_succ.
  - assert (n <> 0)%Z by (intros ->; simpl in Hp; lia).
    replace n with (Z.succ (n - 1)) in Hp by lia.
    rewrite Z.pow_succ_r in Hp by lia.
    specialize (IH (n - 1)%Z). lia.
  - assert (n <> 0)%Z by (intros ->; simpl in Hp; lia).
    replace n with (Z.succ (n - 1)) in Hp by lia.
    rewrite Z.pow_succ_r in Hp by lia.
    specialize (IH (n - 1)%Z). lia.
  - assert (n <> 0)%Z by (intros ->; simpl in Hp; lia). lia.
Qed.

Lemma shr_m_of_loc (m : Z) (l : location) : shr_m (shr_record_of_loc m l) = m.
Proof. now destruct l as [|[| |]]. Qed.

Lemma Zdigits2_nonneg (m : Z) : (0 <= Zdigits2 m)%Z.
Proof. destruct m; simpl; lia. Qed.

Lemma shr_fexp_spec (m e : Z) (l : location) :
  (0 <= m)%Z ->
  (0 <= shr_m (fst (shr_fexp prec emax m e l))
   /\ snd (shr_fexp prec emax m e l)
      = Z.max e (fexp prec emax (Zdigits2 m + e))
   /\ Zdigits2 (shr_m (fst (shr_fexp prec emax m e l)))
      + snd (shr_fexp prec emax m e l)
      = Z.max (snd (shr_fexp prec emax m e l)) (Zdigits2 m + e))%Z.
Proof.
  intros Hm. pose proof (Zdigits2_nonneg m) as Hd.
  unfold shr_fexp, shr.
  destruct (fexp prec emax (Zdigits2 m + e) - e)%Z as [|p|p] eqn:E;
    cbn [fst snd]; rewrite ?shr_m_of_loc; try lia.
  destruct (Zdigits2_iter_shr_1 p (shr_record_of_loc m l)) as [H1 H2];
    rewrite ?shr_m_of_loc in *; [exact Hm|].
  rewrite H2. lia.
Qed.

Lemma binary_round_aux_finite (sx : bool) (mx ex : Z) (lx : location) :
  (0 <= mx)%Z -> (ex <= 970)%Z -> (Zdigits2 mx + ex <= 1023)%Z ->
  forall s, binary_round_aux prec emax sx mx ex lx <> S754_infinity s.
Proof.
  intros Hm He Hd s. unfold binary_round_aux.
  pose proof (shr_fexp_spec mx ex lx Hm) as (H1 & E1 & D1).
  destruct (shr_fexp prec emax mx ex lx) as [mrs1 e1]. cbn [fst snd] in *.
  pose proof (Zdigits2_round (shr_m mrs1) (loc_of_shr_record mrs1) H1)
    as [Hr Dr].
  set (mr := round_nearest_even (shr_m mrs1) (loc_of_shr_record mrs1)) in *.
  pose proof (shr_fexp_spec mr e1 loc_Exact Hr) as (H2 & E2 & D2).
  destruct (shr_fexp prec emax mr e1 loc_Exact) as [mrs2 e2].
  cbn [fst snd] in *.
  unfold fexp, SpecFloat.emin, prec, emax in *.
  destruct (shr_m mrs2); try discriminate.
  destruct (Z.leb_spec e2 (1024 - 53)); [discriminate | lia].
Qed.

Lemma binary_normalize_finite (z : Z) :
  (Z.abs z < 2 ^ 1023)%Z ->
  forall s, binary_normalize prec emax z 0 false <> S754_infinity s.
Proof.
  intros Hz s. unfold binary_normalize.
  assert (Hgen : forall sx p, (Zpos p < 2 ^ 1023)%Z ->
            binary_round prec emax sx p 0 <> S754_infinity s).
  { intros sx p Hp. unfold binary_round, shl_align.
    pose proof (digits2_pos_bound p 1023 ltac:(lia) Hp) as Hd.
    destruct (fexp prec emax (Z.pos (digits2_pos p) + 0) - 0)%Z as [|d|d] eqn:E;
      try (apply binary_round_aux_finite; cbn [Zdigits2]; lia).
    apply binary_round_aux_finite; cbn [Zdigits2];
      unfold fexp, SpecFloat.emin, prec, emax in *;
      rewrite ?digits2_pos_iter_xO; lia. }
  destruct z as [|p|p]; [discriminate | apply Hgen; lia | apply Hgen; lia].
Qed.

Lemma float_of_int_defined (z : Z) :
  (Z.abs z < 2 ^ 1023)%Z -> exists t, float_of_int z = Ok t.
Proof.
  intros Hz. unfold float_of_int.
  pose proof (binary_normalize_finite z Hz) as H.
  destruct (binary_normalize prec emax z 0 false); eauto.
  now destruct (H s).
Qed.

(* ================================================================= *)
(** ** The rule store, step by step *)

Lemma holds_eta (s : session_state) (rules : dict policy) :
  holds s rules -> s = {| commission_rules := Some rules |}.
Proof. destruct s as [c]. unfold holds. simpl. now intros ->. Qed.

Ltac run_method :=
  unfold managers.add_rule, managers.remove_rule, managers.get_rules,
    managers._initialize_rules, has_rules, read_rules, write_rules,
    bind, ret, raise, lift; simpl.

(** What [add_rule] does on a session that holds [rules]. *)
Lemma add_rule_run s rules n r t :
  holds s rules ->
  managers.add_rule n r t s =
    if blank n then (Ok (false, managers.msg_no_name), s)
    else if dict_mem n rules then (Ok (false, managers.msg_exists n), s)
    else (Ok (true, managers.msg_added n),
          {| commission_rules :=
               Some (dict_set n {| rate := r; threshold := t |} rules) |}).
Proof.
  intros H. run_method. rewrite truthy_strip.
  destruct (blank n); simpl; [reflexivity|].
  rewrite H. destruct (dict_mem n rules); simpl; [reflexivity|].
  now rewrite H.
Qed.

(** What [remove_rule] does on a session that holds [rules]. *)
Lemma remove_rule_run s rules n :
  holds s rules ->
  managers.remove_rule n s =
    if (1 <? len rules)%nat then
      if dict_mem n rules
      then (Ok (true, managers.msg_removed n),
            {| commission_rules := Some (dict_del n rules) |})
      else (Ok (false, managers.msg_not_found n), s)
    else (Ok (false, managers.msg_last_rule), s).
Proof.
  intros H. run_method. rewrite H.
  destruct (1 <? len rules)%nat; [|reflexivity].
  destruct (dict_mem n rules); [|reflexivity].
  now rewrite H.
Qed.

(** One operation keeps the invariant, and never raises. *)
Lemma run_op_invariant o s rules :
  holds s rules -> policy_invariant rules ->
  exists rules',
    run_op o s = (Ok tt, {| commission_rules := Some rules' |})
    /\ policy_invariant rules'.
Proof.
  intros H [Hne Hnd]. pose proof (holds_eta _ _ H) as Hs.
  destruct o as [n r t | n]; unfold run_op, bind at 1.
  - rewrite (add_rule_run _ _ _ _ _ H).
    destruct (blank n); [|destruct (dict_mem n rules)]; simpl.
    + exists rules. rewrite Hs at 1. now repeat split.
    + exists rules. rewrite Hs at 1. now repeat split.
    + eexists. split; [reflexivity|]. split.
      * apply dict_set_nonempty.
      * now apply unique_keys_set.
  - rewrite (remove_rule_run _ _ _ H).
    destruct (1 <? len rules)%nat eqn:L; [destruct (dict_mem n rules) eqn:E|]; simpl.
    + eexists. split; [reflexivity|]. split.
      * apply Nat.ltb_lt in L. unfold len in L.
        pose proof (length_dict_del _ _ E) as Hl.
        intros Habs. rewrite Habs in Hl. simpl in Hl. lia.
      * now apply unique_keys_del.
    + exists rules. rewrite Hs at 1. now repeat split.
    + exists rules. rewrite Hs at 1. now repeat split.
Qed.

(** Blank names never enter the policy set through [add_rule]. *)
Lemma run_op_no_blank_key o s rules rules' :
  holds s rules -> no_blank_key rules ->
  run_op o s = (Ok tt, {| commission_rules := Some rules' |}) ->
  no_blank_key rules'.
Proof.
  intros H Hnb. pose proof (holds_eta _ _ H) as Hs.
  destruct o as [n r t | n]; unfold run_op, bind at 1.
  - rewrite (add_rule_run _ _ _ _ _ H).
    destruct (blank n) eqn:B; [|destruct (dict_mem n rules) eqn:E];
      simpl; unfold ret; rewrite ?Hs; intros [= <-]; try exact Hnb.
    intros k Hk. rewrite keys_dict_set, E in Hk.
    apply in_app_or in Hk as [Hk | [<- | []]]; auto.
  - rewrite (remove_rule_run _ _ _ H).
    destruct (1 <? len rules)%nat; [destruct (dict_mem n rules)|];
      simpl; unfold ret; rewrite ?Hs; intros [= <-]; try exact Hnb.
    intros k Hk. apply Hnb. eapply keys_dict_del_incl; eauto.
Qed.

Lemma run_ops_no_blank_key ops s rules rules' :
  holds s rules -> policy_invariant rules -> no_blank_key rules ->
  run_ops ops s = (Ok tt, {| commission_rules := Some rules' |}) ->
  no_blank_key rules'.
Proof.
  revert s rules. induction ops as [|o ops IH]; intros s rules H Hinv Hnb.
  - simpl. unfold ret. rewrite (holds_eta _ _ H). now intros [= <-].
  - destruct (run_op_invariant o s rules H Hinv) as (rules1 & Hrun & Hinv1).
    simpl. unfold bind at 1. rewrite Hrun.
    apply (IH {| commission_rules := Some rules1 |} rules1 eq_refl Hinv1).
    eapply run_op_no_blank_key; eauto.
Qed.

(** In such a policy set a name that is present is not blank, so the
    two failure cases of [add_rule] do not overlap. *)
Lemma present_name_not_blank rules n :
  no_blank_key rules -> dict_mem n rules = true -> blank n = false.
Proof. intros Hnb Hm. now apply Hnb, dict_mem_In. Qed.

Lemma default_rules_no_blank_key : no_blank_key managers.default_rules.
Proof.
  intros k [<- | [<- | [<- | []]]]; reflexivity.
Qed.

(* ================================================================= *)
(** ** Properties of the rule store *)

(** C4. Starting from a policy set that is non-empty and has unique tier
    names, any finite sequence of [add_rule] and [remove_rule] calls, with
    any arguments, runs to the end and leaves a policy set that is again
    non-empty and without duplicate tier names. *)
Theorem run_ops_preserve_invariant (ops : list op) (s : session_state)
    (rules : dict policy) :
  holds s rules ->
  rules <> [] ->
  NoDup (keys rules) ->
  exists rules',
    run_ops ops s = (Ok tt, {| commission_rules := Some rules' |})
    /\ rules' <> []
    /\ NoDup (keys rules').
Proof.
  revert s rules. induction ops as [|o ops IH]; intros s rules H Hne Hnd.
  - exists rules. simpl. unfold ret. now rewrite (holds_eta _ _ H) at 1.
  - destruct (run_op_invariant o s rules H (conj Hne Hnd))
      as (rules1 & Hrun & Hne1 & Hnd1).
    destruct (IH {| commission_rules := Some rules1 |} rules1 eq_refl Hne1 Hnd1)
      as (rules2 & Hrun2 & Hinv2).
    exists rules2. split; [|exact Hinv2].
    simpl. unfold bind at 1. now rewrite Hrun.
Qed.

(** C5 (as amended). For every tier name that is not blank and not
    present in the policy set, [add_rule] returns success with the
    confirmation message, stores the entry with the given rate and
    threshold, leaves every other entry as it was, and [get_rules] then
    returns a mapping in which the tier has those values. *)
Theorem add_rule_new_tier_succeeds (s : session_state) (rules : dict policy)
    (tier_name : str) (r : float) (t : Z) :
  holds s rules ->
  blank tier_name = false ->
  dict_mem tier_name rules = false ->
  exists s' rules',
    managers.add_rule tier_name r t s = (Ok (true, managers.msg_added tier_name), s')
    /\ managers.get_rules s' = (Ok rules', s')
    /\ rules' = rules ++ [(tier_name, {| rate := r; threshold := t |})]
    /\ dict_get tier_name rules' = Some {| rate := r; threshold := t |}
    /\ forall k, k <> tier_name -> dict_get k rules' = dict_get k rules.
Proof.
  intros H Hb Hm.
  exists {| commission_rules :=
              Some (dict_set tier_name {| rate := r; threshold := t |} rules) |}.
  exists (dict_set tier_name {| rate := r; threshold := t |} rules).
  rewrite (add_rule_run _ _ _ _ _ H), Hb, Hm.
  repeat split.
  - clear H. induction rules as [|[k v] rules IH]; simpl; [reflexivity|].
    simpl in Hm. apply orb_false_iff in Hm as [Hk Hm].
    rewrite Hk. f_equal. auto.
  - apply dict_get_set_same.
  - intros k Hk. now apply dict_get_set_other.
Qed.

(** C6. [add_rule] fails, and then changes nothing, in exactly two cases:
    a blank tier name (message: enter a tier name) and a tier name already
    in the policy set (message: the rule already exists); in every other
    case it succeeds. *)
Theorem add_rule_failure_cases (s : session_state) (rules : dict policy)
    (tier_name : str) (r : float) (t : Z) :
  holds s rules ->
  (blank tier_name = true ->
     managers.add_rule tier_name r t s = (Ok (false, managers.msg_no_name), s))
  /\ (blank tier_name = false -> dict_mem tier_name rules = true ->
     managers.add_rule tier_name r t s
       = (Ok (false, managers.msg_exists tier_name), s))
  /\ (blank tier_name = false -> dict_mem tier_name rules = false ->
     exists s', managers.add_rule tier_name r t s
       = (Ok (true, managers.msg_added tier_name), s'))
  /\ ((exists msg s', managers.add_rule tier_name r t s = (Ok (false, msg), s'))
      <-> blank tier_name = true \/ dict_mem tier_name rules = true).
Proof.
  intros H. rewrite (add_rule_run _ _ _ _ _ H).
  destruct (blank tier_name), (dict_mem tier_name rules);
    repeat split; try discriminate; eauto;
    try (intros [? | ?]; discriminate);
    try (intros (msg & s' & E); discriminate).
Qed.

(** C7. [remove_rule] fails with the last-rule message whenever the policy
    set has at most one tier, whatever the name; with more than one tier it
    fails with the not-found message when the name is absent, and otherwise
    deletes that tier, leaves the others, and succeeds. *)
Theorem remove_rule_cases (s : session_state) (rules : dict policy)
    (tier_name : str) :
  holds s rules ->
  unique_keys rules ->
  (len rules <= 1 ->
     managers.remove_rule tier_name s = (Ok (false, managers.msg_last_rule), s))
  /\ (1 < len rules -> dict_mem tier_name rules = false ->
     managers.remove_rule tier_name s
       = (Ok (false, managers.msg_not_found tier_name), s))
  /\ (1 < len rules -> dict_mem tier_name rules = true ->
     exists rules',
       managers.remove_rule tier_name s
         = (Ok (true, managers.msg_removed tier_name),
            {| commission_rules := Some rules' |})
       /\ dict_mem tier_name rules' = false
       /\ S (len rules') = len rules
       /\ forall k, k <> tier_name -> dict_get k rules' = dict_get k rules).
Proof.
  intros H Hu. rewrite (remove_rule_run _ _ _ H).
  repeat split.
  - intros L. apply Nat.ltb_ge in L. now rewrite L.
  - intros L E. apply Nat.ltb_lt in L. now rewrite L, E.
  - intros L E. apply Nat.ltb_lt in L. rewrite L, E.
    exists (dict_del tier_name rules). repeat split.
    + now apply dict_mem_del_same.
    + now apply length_dict_del.
    + intros k Hk. now apply dict_get_del_other.
Qed.

(** C9. Initialization is idempotent: running it twice leaves the session
    as running it once does; a session that already holds a policy set is
    left untouched, and only a session without one is seeded with the
    default mapping. *)
Theorem initialize_rules_idempotent (s : session_state) :
  (managers._initialize_rules ;;; managers._initialize_rules) s
    = managers._initialize_rules s
  /\ (forall rules, holds s rules -> managers._initialize_rules s = (Ok tt, s))
  /\ (commission_rules s = None ->
      managers._initialize_rules s = (Ok tt, seeded_session)).
Proof.
  destruct s as [[rules|]]; run_method; repeat split; intros; discriminate.
Qed.

(** C10. A failed mutation is atomic: whenever [add_rule] or [remove_rule]
    returns [success = False], the session state after the call is the
    state before it. *)
Theorem failed_mutation_atomic (s s' : session_state) (msg : str) :
  (forall tier_name r t,
      managers.add_rule tier_name r t s = (Ok (false, msg), s') -> s' = s)
  /\ (forall tier_name,
      managers.remove_rule tier_name s = (Ok (false, msg), s') -> s' = s).
Proof.
  destruct s as [[rules|]]; split.
  - intros n r t.
    rewrite (add_rule_run {| commission_rules := Some rules |} rules n r t eq_refl).
    destruct (blank n); [|destruct (dict_mem n rules)]; congruence.
  - intros n.
    rewrite (remove_rule_run {| commission_rules := Some rules |} rules n eq_refl).
    destruct (1 <? len rules)%nat; [destruct (dict_mem n rules)|]; congruence.
  - intros n r t. run_method. rewrite truthy_strip.
    destruct (blank n); simpl; congruence.
  - intros n. run_method. congruence.
Qed.

(* ================================================================= *)
(** ** The validator, step by step *)

Ltac run_validator :=
  unfold validators.validate, validators._get_expected_rate,
    validators.subscript, managers.get_rules, read_rules,
    bind, ret, raise, lift; simpl.

(** The expected rate on a session that holds [rules], for a tier of the
    policy set whose threshold converts to a float. *)
Lemma get_expected_rate_run s rules d tier p t :
  holds s rules ->
  dict_get tier rules = Some p ->
  float_of_int (threshold p) = Ok t ->
  validators._get_expected_rate d tier s
    = (Ok (if gt d (t * 1.2) then rate p * 1.1 else rate p), s).
Proof.
  intros H Hp Ht. run_validator. rewrite H, Hp. simpl. rewrite Ht.
  now destruct (gt d (t * 1.2)).
Qed.

(** [validate] on a known tier, given the expected rate. *)
Lemma validate_run s rules r e :
  holds s rules ->
  dict_mem (product_tier r) rules = true ->
  validators._get_expected_rate (deal_size r) (product_tier r) s = (Ok e, s) ->
  validators.validate r s = (Ok (expected_issues r e), s).
Proof.
  intros H Hm He. unfold validators.validate, bind at 1, managers.get_rules, read_rules.
  rewrite H, Hm. simpl. unfold bind. rewrite He.
  unfold expected_issues, rate_mismatch, over_cap, negative_deal, ret.
  destruct (gt (abs (commission_rate r - e)) 0.001),
    (gt (commission_amount r) (deal_size r * 0.15)),
    (deal_size r <? 0); reflexivity.
Qed.

(** With every threshold of the policy set in range, [validate] returns
    a sequence of issues for every record, and leaves the session as it
    was. *)
Lemma validate_total s rules r :
  holds s rules ->
  thresholds_in_range rules ->
  exists issues, validators.validate r s = (Ok issues, s).
Proof.
  intros H Hconv. destruct (dict_mem (product_tier r) rules) eqn:Hm.
  - destruct (proj1 (dict_get_mem _ _) Hm) as [p Hp].
    destruct (float_of_int_defined _ (Hconv _ _ Hp)) as [t Ht].
    eexists. eapply validate_run; eauto.
    eapply get_expected_rate_run; eauto.
  - eexists. unfold validators.validate, bind, managers.get_rules, read_rules.
    rewrite H, Hm. reflexivity.
Qed.

Lemma validate_batch_total s rules df :
  holds s rules ->
  thresholds_in_range rules ->
  exists issues,
    Forall2 (fun r i => validators.validate r s = (Ok i, s)) df issues.
Proof.
  intros H Hconv. induction df as [|r df [issues IH]].
  - exists []. constructor.
  - destruct (validate_total s rules r H Hconv) as [i Hi].
    exists (i :: issues). now constructor.
Qed.


Lemma length_concat_total (issues : list (list str)) :
  List.length (List.concat issues) = issue_total issues.
Proof.
  unfold issue_total. induction issues as [|i issues IH]; simpl; [reflexivity|].
  now rewrite length_app, IH.
Qed.



(** The three digits that [pad3] prints for a number below 1000. *)
Lemma pad3_shape (n : N) :
  (n < 1000)%N ->
  List.length (pad3 n) = 3%nat /\ forallb is_digit (pad3 n) = true.
Proof.
  intros Hn.
  assert (Hall : forallb (fun k => (List.length (pad3 (N.of_nat k)) =? 3)%nat
                                   && forallb is_digit (pad3 (N.of_nat k)))
                         (seq 0 1000) = true) by (vm_compute; reflexivity).
  rewrite forallb_forall in Hall.
  specialize (Hall (N.to_nat n)). rewrite N2Nat.id in Hall.
  assert (Hin : In (N.to_nat n) (seq 0 1000)) by (apply in_seq; lia).
  apply Hall, andb_true_iff in Hin as [H1 H2].
  apply Nat.eqb_eq in H1. now split.
Qed.

(** On a finite float, [format_3f] prints a sign, an integer part, a
    point and exactly three digits. *)
Lemma format_3f_three_decimals (x : float) :
  is_finite x = true ->
  exists sgn int_part frac,
    format_3f x = sign_str sgn ++ digits int_part ++ lit "." ++ frac
    /\ List.length frac = 3%nat
    /\ forallb is_digit frac = true.
Proof.
  unfold is_finite, format_3f. destruct (Prim2SF x) as [s| s| |s m e]; try discriminate; intros _.
  - exists s, 0%N, (lit "000"). now repeat split.
  - set (n := Z.to_N (round_half_even (Z.pos m * 1000) e)).
    exists s, (n / 1000)%N, (pad3 (n mod 1000)).
    split; [reflexivity|]. apply pad3_shape. apply N.mod_lt. discriminate.
Qed.

(* ================================================================= *)
(** ** Properties of the validator and of the batch metrics *)

(** C1 (as amended). For a record whose tier is a key of the policy set
    and whose tier's threshold converts to a float, [_get_expected_rate]
    returns the expected rate [e], and [validate] returns, in this order:
    the rate-mismatch issue (expected and actual rate printed with [.3f])
    iff [|commission_rate - e| > 0.001]; then the 15%-cap issue iff
    [commission_amount > deal_size * 0.15], whatever the first check gave;
    then the negative-deal-size issue iff [deal_size < 0]. The sequence is
    empty iff none of the three checks fires, which is when the record has
    status PASS. *)
Theorem validate_known_tier_issues (s : session_state) (rules : dict policy)
    (r : row) (p : policy) (t : float) :
  holds s rules ->
  dict_get (product_tier r) rules = Some p ->
  float_of_int (threshold p) = Ok t ->
  let e := if gt (deal_size r) (t * 1.2) then rate p * 1.1 else rate p in
  let mismatch := gt (abs (commission_rate r - e)) 0.001 in
  let cap := gt (commission_amount r) (deal_size r * 0.15) in
  let negative := (deal_size r <? 0) in
  let issues :=
    (if mismatch
     then [lit "Rate mismatch: expected " ++ format_3f e
           ++ lit ", got " ++ format_3f (commission_rate r)]
     else [])
    ++ (if cap then [lit "Commission exceeds 15% cap"] else [])
    ++ (if negative then [lit "Negative deal size"] else []) in
  validators._get_expected_rate (deal_size r) (product_tier r) s = (Ok e, s)
  /\ validators.validate r s = (Ok issues, s)
  /\ (issues = [] <-> mismatch = false /\ cap = false /\ negative = false)
  /\ (issues = [] <-> app.status_of issues = app.PASS).
Proof.
  intros H Hp Ht e mismatch cap negative issues.
  assert (Hm : dict_mem (product_tier r) rules = true)
    by (apply dict_get_mem; eauto).
  pose proof (get_expected_rate_run s rules (deal_size r) (product_tier r)
                p t H Hp Ht) as He.
  split; [exact He|].
  split; [exact (validate_run s rules r e H Hm He)|].
  subst issues. unfold app.status_of.
  destruct mismatch, cap, negative; simpl;
    repeat split; try discriminate; try reflexivity;
    intros; repeat match goal with H : _ /\ _ |- _ => destruct H end;
    discriminate.
Qed.

(** C2 (as amended). For every deal size and every tier of the policy
    set whose threshold converts to a float, the expected rate is
    [base_rate * 1.1] when
    [deal_size > threshold * 1.2] and [base_rate] otherwise. For a tier
    with rate 0.05 and threshold 100000 the boundary is strict: at 120000
    the result is 0.05, and at 120001 it is the float product
    [0.05 * 1.1], which is 0.05500000000000001 (printed 0.055 by [.3f]). *)
Theorem expected_rate_accelerator (s : session_state) (rules : dict policy)
    (d : float) (tier : str) (p : policy) (t : float) :
  holds s rules ->
  dict_get tier rules = Some p ->
  float_of_int (threshold p) = Ok t ->
  validators._get_expected_rate d tier s
    = (Ok (if gt d (t * 1.2) then rate p * 1.1 else rate p), s)
  /\ (rate p = 0.05 -> threshold p = 100000%Z ->
      validators._get_expected_rate 120000 tier s = (Ok 0.05, s)
      /\ validators._get_expected_rate 120001 tier s = (Ok (0.05 * 1.1), s)
      /\ 0.05 * 1.1 = 0x1.c28f5c28f5c2ap-5
      /\ format_3f (0.05 * 1.1) = lit "0.055").
Proof.
  intros H Hp Ht.
  split; [exact (get_expected_rate_run s rules d tier p t H Hp Ht)|].
  intros Hr Hthr.
  rewrite (get_expected_rate_run s rules 120000 tier p t H Hp Ht).
  rewrite (get_expected_rate_run s rules 120001 tier p t H Hp Ht).
  rewrite Hthr in Ht. vm_compute in Ht. injection Ht as <-.
  rewrite Hr. repeat split.
Qed.

(** C3. For a record whose tier is not a key of the policy set,
    [validate] returns exactly one issue, which names the tier; no other
    field of the record has any influence, and no other check runs. *)
Theorem validate_unknown_tier (s : session_state) (rules : dict policy)
    (r : row) :
  holds s rules ->
  dict_mem (product_tier r) rules = false ->
  validators.validate r s
    = (Ok [lit "Unknown product tier: " ++ product_tier r], s)
  /\ forall r', product_tier r' = product_tier r ->
       validators.validate r' s = validators.validate r s.
Proof.
  intros H Hm.
  assert (Hrun : forall r0, product_tier r0 = product_tier r ->
            validators.validate r0 s
              = (Ok [lit "Unknown product tier: " ++ product_tier r], s)).
  { intros r0 E. unfold validators.validate, bind, managers.get_rules, read_rules.
    rewrite H, E, Hm. reflexivity. }
  split; [now apply Hrun|].
  intros r' E. now rewrite (Hrun r' E), (Hrun r eq_refl).
Qed.


(* ================================================================= *)
(** ** Where the specification and the code part *)

(** C1, as the specification words it: a tier of the policy set is not
    enough for [validate] to return issues. [add_rule] accepts the
    threshold [2**1024]; the new tier is then a key of the policy set, and
    on a record of that tier with a negative deal size [validate] raises
    [OverflowError] instead of returning the negative-deal-size issue. *)
Lemma validate_known_tier_can_raise :
  exists rules,
    managers.add_rule (lit "gold") 0.08 (2 ^ 1024) seeded_session
      = (Ok (true, managers.msg_added (lit "gold")), huge_threshold_session)
    /\ holds huge_threshold_session rules
    /\ dict_mem (lit "gold") rules = true
    /\ (deal_size (deal (lit "gold") (-10) 0.08 0) <? 0) = true
    /\ validators.validate (deal (lit "gold") (-10) 0.08 0)
         huge_threshold_session
       = (Raise OverflowError, huge_threshold_session)
    /\ forall issues s',
         validators.validate (deal (lit "gold") (-10) 0.08 0)
           huge_threshold_session
         <> (Ok issues, s').
Proof.
  eexists. split; [vm_compute; reflexivity|].
  split; [vm_compute; reflexivity|].
  split; [vm_compute; reflexivity|].
  split; [vm_compute; reflexivity|].
  assert (E : validators.validate (deal (lit "gold") (-10) 0.08 0)
                huge_threshold_session
              = (Raise OverflowError, huge_threshold_session))
    by (vm_compute; reflexivity).
  split; [exact E|]. intros issues s'. rewrite E. discriminate.
Qed.

(** C2, as the specification words it. At 120001 the code returns the
    product [0.05 * 1.1], and that float is not the float 0.055. And a tier
    of the policy set is not enough for a rate to be returned: on the tier
    added with the threshold [2**1024], [_get_expected_rate] raises
    [OverflowError] for every deal size. *)
Lemma expected_rate_claim_fails :
  (exists v,
      validators._get_expected_rate 120001 (lit "premium") boundary_session
        = (Ok v, boundary_session)
      /\ (v =? 0.055) = false
      /\ v <> 0.055)
  /\ (exists rules,
        holds huge_threshold_session rules
        /\ dict_mem (lit "gold") rules = true
        /\ forall d,
             validators._get_expected_rate d (lit "gold")
               huge_threshold_session
             = (Raise OverflowError, huge_threshold_session)).
Proof.
  split.
  - exists (0.05 * 1.1). split; [reflexivity|]. split; [reflexivity|].
    intros E. apply (f_equal (fun x => x =? 0.055)) in E.
    vm_compute in E. discriminate.
  - eexists. split; [vm_compute; reflexivity|].
    split; [vm_compute; reflexivity|].
    intros d. vm_compute. reflexivity.
Qed.

(** C5, as the specification words it: a name that is absent from the
    policy set is not enough for [add_rule] to succeed; the empty name is
    absent from the default policy set and is refused. *)
Lemma add_rule_absent_name_can_fail :
  ~ (forall s rules tier_name r t,
       holds s rules ->
       dict_mem tier_name rules = false ->
       exists msg s', managers.add_rule tier_name r t s = (Ok (true, msg), s')).
Proof.
  intros Hall.
  destruct (Hall seeded_session managers.default_rules [] 0.05 0%Z
              eq_refl eq_refl) as (msg & s' & E).
  discriminate E.
Qed.

(* ================================================================= *)
(** ** The theorems at concrete inputs *)

(** A standard deal of 50000 is over the accelerator bound [0 * 1.2], so
    its expected rate is [0.05 * 1.1]: a commission rate of 0.05 is a
    mismatch, one of 0.055 passes. *)
Example validate_standard_50000 :
  fst (validators.validate (deal (lit "standard") 50000 0.05 2500)
         seeded_session)
    = Ok [lit "Rate mismatch: expected 0.055, got 0.050"]
  /\ fst (validators.validate (deal (lit "standard") 50000 0.055 2750)
            seeded_session)
    = Ok [].
Proof. split; reflexivity. Qed.

(** A commission of 2000 on a deal of 10000 is over the cap of 1500. *)
Example validate_cap_scenario :
  fst (validators.validate (deal (lit "standard") 10000 0.055 2000)
         seeded_session)
    = Ok [lit "Commission exceeds 15% cap"].
Proof. reflexivity. Qed.

Lemma validate_known_tier_issues_witness :
  validators.validate (deal (lit "standard") (-10) 0.2 5) seeded_session
    = (Ok [lit "Rate mismatch: expected 0.050, got 0.200";
           lit "Commission exceeds 15% cap";
           lit "Negative deal size"], seeded_session).
Proof.
  exact (proj1 (proj2 (validate_known_tier_issues seeded_session
                         managers.default_rules
                         (deal (lit "standard") (-10) 0.2 5)
                         {| rate := 0.05; threshold := 0 |} 0
                         eq_refl eq_refl eq_refl))).
Defined.

Lemma expected_rate_accelerator_witness :
  validators._get_expected_rate 120000 (lit "premium") boundary_session
    = (Ok 0.05, boundary_session)
  /\ validators._get_expected_rate 120001 (lit "premium") boundary_session
    = (Ok 0x1.c28f5c28f5c2ap-5, boundary_session).
Proof.
  destruct (proj2 (expected_rate_accelerator boundary_session boundary_rules
                     0 (lit "premium")
                     {| rate := 0.05; threshold := 100000 |} 100000
                     eq_refl eq_refl eq_refl) eq_refl eq_refl)
    as (H1 & H2 & _ & _).
  split; [exact H1 | exact H2].
Defined.

Lemma validate_unknown_tier_witness :
  validators.validate (deal (lit "gold") 50000 0.05 2500) seeded_session
    = (Ok [lit "Unknown product tier: gold"], seeded_session).
Proof.
  exact (proj1 (validate_unknown_tier seeded_session managers.default_rules
                  (deal (lit "gold") 50000 0.05 2500) eq_refl eq_refl)).
Defined.

Lemma run_ops_preserve_invariant_witness :
  exists rules',
    run_ops [RemoveRule (lit "premium"); RemoveRule (lit "standard");
             RemoveRule (lit "enterprise"); AddRule (lit "gold") 0.08 250000;
             AddRule (lit "gold") 0.09 1; AddRule (lit "  ") 0.01 0]
      seeded_session
      = (Ok tt, {| commission_rules := Some rules' |})
    /\ rules' <> []
    /\ NoDup (keys rules').
Proof.
  apply (run_ops_preserve_invariant _ seeded_session managers.default_rules).
  - reflexivity.
  - discriminate.
  - repeat constructor; simpl; intuition discriminate.
Defined.

Lemma add_rule_new_tier_succeeds_witness :
  exists s' rules',
    managers.add_rule (lit "gold") 0.08 250000 seeded_session
      = (Ok (true, managers.msg_added (lit "gold")), s')
    /\ managers.get_rules s' = (Ok rules', s')
    /\ rules' = managers.default_rules
                ++ [(lit "gold", {| rate := 0.08; threshold := 250000 |})]
    /\ dict_get (lit "gold") rules'
       = Some {| rate := 0.08; threshold := 250000 |}
    /\ forall k, k <> lit "gold" ->
         dict_get k rules' = dict_get k managers.default_rules.
Proof.
  apply (add_rule_new_tier_succeeds seeded_session managers.default_rules
           (lit "gold") 0.08 250000); reflexivity.
Defined.

Lemma add_rule_failure_cases_witness :
  managers.add_rule (lit " ") 0.08 0 seeded_session
    = (Ok (false, managers.msg_no_name), seeded_session)
  /\ managers.add_rule (lit "premium") 0.08 0 seeded_session
    = (Ok (false, managers.msg_exists (lit "premium")), seeded_session)
  /\ exists s', managers.add_rule (lit "gold") 0.08 0 seeded_session
    = (Ok (true, managers.msg_added (lit "gold")), s').
Proof.
  split; [|split].
  - exact (proj1 (add_rule_failure_cases seeded_session managers.default_rules
                    (lit " ") 0.08 0 eq_refl) eq_refl).
  - exact (proj1 (proj2 (add_rule_failure_cases seeded_session
                           managers.default_rules (lit "premium") 0.08 0
                           eq_refl)) eq_refl eq_refl).
  - exact (proj1 (proj2 (proj2 (add_rule_failure_cases seeded_session
                                  managers.default_rules (lit "gold") 0.08 0
                                  eq_refl))) eq_refl eq_refl).
Defined.

Lemma remove_rule_cases_witness :
  managers.remove_rule (lit "premium") boundary_session
    = (Ok (false, managers.msg_last_rule), boundary_session)
  /\ managers.remove_rule (lit "gold") seeded_session
    = (Ok (false, managers.msg_not_found (lit "gold")), seeded_session)
  /\ exists rules',
       managers.remove_rule (lit "premium") seeded_session
         = (Ok (true, managers.msg_removed (lit "premium")),
            {| commission_rules := Some rules' |})
       /\ dict_mem (lit "premium") rules' = false
       /\ S (len rules') = len managers.default_rules
       /\ forall k, k <> lit "premium" ->
            dict_get k rules' = dict_get k managers.default_rules.
Proof.
  assert (Hb : unique_keys boundary_rules)
    by (repeat constructor; simpl; intuition discriminate).
  assert (Hd : unique_keys managers.default_rules)
    by (repeat constructor; simpl; intuition discriminate).
  split; [|split].
  - apply (proj1 (remove_rule_cases boundary_session boundary_rules
                    (lit "premium") eq_refl Hb)).
    simpl. lia.
  - apply (proj1 (proj2 (remove_rule_cases seeded_session
                           managers.default_rules (lit "gold") eq_refl Hd))).
    + simpl. lia.
    + reflexivity.
  - apply (proj2 (proj2 (remove_rule_cases seeded_session
                           managers.default_rules (lit "premium") eq_refl Hd))).
    + simpl. lia.
    + reflexivity.
Defined.


Lemma initialize_rules_idempotent_witness :
  managers._initialize_rules fresh_session = (Ok tt, seeded_session)
  /\ managers._initialize_rules seeded_session = (Ok tt, seeded_session).
Proof.
  split.
  - exact (proj2 (proj2 (initialize_rules_idempotent fresh_session)) eq_refl).
  - exact (proj1 (proj2 (initialize_rules_idempotent seeded_session))
             managers.default_rules eq_refl).
Defined.

Lemma failed_mutation_atomic_witness :
  snd (managers.add_rule (lit "premium") 0.09 1 seeded_session) = seeded_session
  /\ snd (managers.remove_rule (lit "gold") seeded_session) = seeded_session.
Proof.
  split.
  - apply (proj1 (failed_mutation_atomic seeded_session
                    (snd (managers.add_rule (lit "premium") 0.09 1 seeded_session))
                    (managers.msg_exists (lit "premium")))
             (lit "premium") 0.09 1%Z).
    reflexivity.
  - apply (proj2 (failed_mutation_atomic seeded_session
                    (snd (managers.remove_rule (lit "gold") seeded_session))
                    (managers.msg_not_found (lit "gold")))
             (lit "gold")).
    reflexivity.
Defined.

(* ================================================================= *)
(** ** Methods that only read the session *)

Lemma read_only_ret {A} (a : A) : read_only (ret a).
Proof. intros s. reflexivity. Qed.

Lemma read_only_raise {A} (e : exn) : read_only (@raise A e).
Proof. intros s. reflexivity. Qed.

Lemma read_only_lift {A} (r : result A) : read_only (lift r).
Proof. intros s. reflexivity. Qed.

Lemma read_only_read_rules : read_only read_rules.
Proof. intros s. unfold read_rules. now destruct (commission_rules s). Qed.

Lemma read_only_bind {A B} (m : M A) (k : A -> M B) :
  read_only m -> (forall a, read_only (k a)) -> read_only (bind m k).
Proof.
  intros Hm Hk s. unfold bind. specialize (Hm s).
  destruct (m s) as [[a|e] s']; simpl in Hm; subst s'; [apply Hk | reflexivity].
Qed.

Lemma read_only_subscript rules k : read_only (validators.subscript rules k).
Proof.
  unfold validators.subscript. destruct (dict_get k rules);
    [apply read_only_ret | apply read_only_raise].
Qed.

Lemma read_only_get_expected_rate d tier :
  read_only (validators._get_expected_rate d tier).
Proof.
  unfold validators._get_expected_rate, managers.get_rules.
  apply read_only_bind; [apply read_only_read_rules | intros rules].
  apply read_only_bind; [apply read_only_subscript | intros p].
  apply read_only_bind; [apply read_only_subscript | intros p'].
  apply read_only_bind; [apply read_only_lift | intros t].
  destruct (gt d (t * 1.2)); apply read_only_ret.
Qed.

Lemma read_only_validate r : read_only (validators.validate r).
Proof.
  unfold validators.validate, managers.get_rules.
  apply read_only_bind; [apply read_only_read_rules | intros rules].
  destruct (negb (dict_mem (product_tier r) rules)); [apply read_only_ret|].
  apply read_only_bind; [apply read_only_get_expected_rate | intros e].
  apply read_only_ret.
Qed.

Lemma read_only_all_issues df : read_only (analyzers.all_issues df).
Proof.
  induction df as [|r df IH]; simpl; [apply read_only_ret|].
  apply read_only_bind; [apply read_only_validate | intros issues].
  apply read_only_bind; [exact IH | intros more]. apply read_only_ret.
Qed.

Lemma read_only_render_validation_tab df :
  read_only (tabs.render_validation_tab df).
Proof.
  induction df as [|r df IH]; simpl; [apply read_only_ret|].
  apply read_only_bind; [apply read_only_validate | intros issues].
  apply read_only_bind; [exact IH | intros more]. apply read_only_ret.
Qed.

(** X1. The reading methods never change the session state, whether they
    return or raise: [get_rules], [get_rules_list], [_get_expected_rate],
    [validate], [calculate_metrics] and the loop of the validation tab. *)
Theorem reading_methods_leave_session (s : session_state) :
  snd (managers.get_rules s) = s
  /\ snd (managers.get_rules_list s) = s
  /\ (forall d tier, snd (validators._get_expected_rate d tier s) = s)
  /\ (forall r, snd (validators.validate r s) = s)
  /\ (forall sum mean df,
        snd (analyzers.calculate_metrics sum mean df s) = s)
  /\ (forall df, snd (tabs.render_validation_tab df s) = s).
Proof.
  repeat split; intros.
  - apply read_only_read_rules.
  - unfold managers.get_rules_list, managers.get_rules.
    apply read_only_bind; [apply read_only_read_rules | intros; apply read_only_ret].
  - apply read_only_get_expected_rate.
  - apply read_only_validate.
  - unfold analyzers.calculate_metrics.
    apply read_only_bind; [apply read_only_all_issues | intros; apply read_only_ret].
  - apply read_only_render_validation_tab.
Qed.

(* ================================================================= *)
(** ** Errors of the validator *)

Lemma float_of_int_cases (z : Z) :
  (exists t, float_of_int z = Ok t) \/ float_of_int z = Raise OverflowError.
Proof.
  unfold float_of_int.
  destruct (binary_normalize prec emax z 0 false); eauto.
Qed.

(** [_get_expected_rate] on a session that holds [rules], case by case. *)
Lemma get_expected_rate_cases s rules d tier :
  holds s rules ->
  validators._get_expected_rate d tier s =
    match dict_get tier rules with
    | None => (Raise (KeyError tier), s)
    | Some p =>
        match float_of_int (threshold p) with
        | Ok t => (Ok (if gt d (t * 1.2) then rate p * 1.1 else rate p), s)
        | Raise e => (Raise e, s)
        end
    end.
Proof.
  intros H. unfold validators._get_expected_rate, validators.subscript,
    managers.get_rules, read_rules, bind, ret, raise, lift.
  rewrite H. destruct (dict_get tier rules) as [p|]; [|reflexivity].
  destruct (float_of_int (threshold p)) as [t|e]; [|reflexivity].
  now destruct (gt d (t * 1.2)).
Qed.

(** [validate] on a session that holds [rules], case by case. *)
Lemma validate_cases s rules r :
  holds s rules ->
  validators.validate r s =
    match dict_get (product_tier r) rules with
    | None => (Ok [validators.msg_unknown_tier (product_tier r)], s)
    | Some p =>
        match float_of_int (threshold p) with
        | Ok t =>
            (Ok (expected_issues r
                   (if gt (deal_size r) (t * 1.2) then rate p * 1.1 else rate p)),
             s)
        | Raise e => (Raise e, s)
        end
    end.
Proof.
  intros H. destruct (dict_get (product_tier r) rules) as [p|] eqn:Hp.
  - assert (Hm : dict_mem (product_tier r) rules = true)
      by (apply dict_get_mem; eauto).
    pose proof (get_expected_rate_cases s rules (deal_size r) (product_tier r) H)
      as He. rewrite Hp in He.
    destruct (float_of_int (threshold p)) as [t|e].
    + now apply (validate_run s rules).
    + unfold validators.validate, bind at 1, managers.get_rules, read_rules.
      rewrite H, Hm. simpl. unfold bind. now rewrite He.
  - apply dict_get_None in Hp.
    unfold validators.validate, bind, managers.get_rules, read_rules.
    now rewrite H, Hp.
Qed.

Lemma length_expected_issues r e : List.length (expected_issues r e) <= 3.
Proof.
  unfold expected_issues.
  destruct (rate_mismatch r e), (over_cap r), (negative_deal r); simpl; lia.
Qed.

(** [validate] returns between zero and three issues. *)
Lemma validate_at_most_three s rules r issues s' :
  holds s rules ->
  validators.validate r s = (Ok issues, s') ->
  List.length issues <= 3.
Proof.
  intros H. rewrite (validate_cases s rules r H).
  destruct (dict_get (product_tier r) rules) as [p|].
  - destruct (float_of_int (threshold p)); intros [= <- <-];
      apply length_expected_issues.
  - intros [= <- <-]. simpl. lia.
Qed.

Lemma validate_ok_or_overflow s rules r :
  holds s rules ->
  (exists issues, validators.validate r s = (Ok issues, s)
                  /\ List.length issues <= 3)
  \/ validators.validate r s = (Raise OverflowError, s).
Proof.
  intros H. pose proof (validate_at_most_three s rules r) as Hlen.
  rewrite (validate_cases s rules r H) in *.
  destruct (dict_get (product_tier r) rules) as [p|].
  - destruct (float_of_int_cases (threshold p)) as [[t Ht] | Ht];
      rewrite Ht in *; [left | now right].
    eexists. split; [reflexivity|]. eapply Hlen; eauto.
  - left. eexists. split; [reflexivity|]. simpl. lia.
Qed.

(** X2. On a session that holds a policy set, [_get_expected_rate] raises
    [KeyError], with the tier as its key, exactly when the tier is absent;
    on a present tier it returns a rate or raises [OverflowError], the
    latter exactly when the tier's threshold does not convert to a float. *)
Theorem expected_rate_errors (s : session_state) (rules : dict policy)
    (d : float) (tier : str) :
  holds s rules ->
  (dict_mem tier rules = false <->
     validators._get_expected_rate d tier s = (Raise (KeyError tier), s))
  /\ (forall p, dict_get tier rules = Some p ->
        (float_of_int (threshold p) = Raise OverflowError <->
           validators._get_expected_rate d tier s = (Raise OverflowError, s))
        /\ ((exists t, float_of_int (threshold p) = Ok t) <->
           exists e, validators._get_expected_rate d tier s = (Ok e, s))).
Proof.
  intros H. rewrite (get_expected_rate_cases s rules d tier H). split.
  - rewrite dict_get_None. destruct (dict_get tier rules) as [p|].
    + split; [discriminate|].
      destruct (float_of_int_cases (threshold p)) as [[t Ht] | Ht];
        rewrite Ht; discriminate.
    + tauto.
  - intros p ->.
    destruct (float_of_int_cases (threshold p)) as [[t Ht] | Ht]; rewrite Ht.
    + split; split; try discriminate; eauto.
    + split; split; try tauto; intros [x Hx]; discriminate.
Qed.

(** X3. On a session that holds a policy set, [validate] never raises
    [KeyError] or [AttributeError]: the membership test guards the lookup.
    It raises [OverflowError] exactly when the record's tier is in the
    policy set with a threshold that does not convert to a float, and
    otherwise returns at most three issues. *)
Theorem validate_outcomes (s : session_state) (rules : dict policy) (r : row) :
  holds s rules ->
  (forall k s', validators.validate r s <> (Raise (KeyError k), s'))
  /\ (forall s', validators.validate r s <> (Raise AttributeError, s'))
  /\ (validators.validate r s = (Raise OverflowError, s) <->
      exists p, dict_get (product_tier r) rules = Some p
                /\ float_of_int (threshold p) = Raise OverflowError)
  /\ ((exists issues, validators.validate r s = (Ok issues, s)
                      /\ List.length issues <= 3)
      \/ validators.validate r s = (Raise OverflowError, s)).
Proof.
  intros H. pose proof (validate_ok_or_overflow s rules r H) as Hcases.
  rewrite (validate_cases s rules r H) in *.
  destruct (dict_get (product_tier r) rules) as [p|].
  - destruct (float_of_int_cases (threshold p)) as [[t Ht] | Ht];
      rewrite Ht in *.
    + repeat split; try discriminate; auto.
      intros (p' & [= <-] & Hp'). congruence.
    + repeat split; try discriminate; eauto.
  - repeat split; try discriminate; auto.
    intros (p' & Hp' & _). discriminate.
Qed.

(* ================================================================= *)
(** ** More on the rule store *)

Lemma without_absent (k : str) (l : list str) : ~ In k l -> without k l = l.
Proof.
  unfold without. induction l as [|x l IH]; simpl; [reflexivity|].
  intros Hn. destruct (str_eqb x k) eqn:E; simpl.
  - apply str_eqb_eq in E. subst x. tauto.
  - f_equal. apply IH. tauto.
Qed.

Lemma keys_dict_del {V} (k : str) (d : dict V) :
  unique_keys d -> keys (dict_del k d) = without k (keys d).
Proof.
  unfold unique_keys, without. induction d as [|[k0 v0] d IH]; simpl; [reflexivity|].
  intros H. inversion H as [|? ? Hnin Hnd]; subst.
  destruct (str_eqb k0 k) eqn:E; simpl.
  - apply str_eqb_eq in E. subst k0.
    symmetry. now apply without_absent.
  - f_equal. now apply IH.
Qed.

Lemma dict_set_absent {V} (k : str) (v : V) (d : dict V) :
  dict_mem k d = false -> dict_set k v d = d ++ [(k, v)].
Proof.
  induction d as [|[k0 v0] d IH]; simpl; [reflexivity|].
  intros Hm. apply orb_false_iff in Hm as [Hk Hm].
  rewrite Hk. f_equal. auto.
Qed.

Lemma dict_del_last {V} (k : str) (v : V) (d : dict V) :
  dict_mem k d = false -> dict_del k (d ++ [(k, v)]) = d.
Proof.
  induction d as [|[k0 v0] d IH]; simpl.
  - now rewrite str_eqb_refl.
  - intros Hm. apply orb_false_iff in Hm as [Hk Hm].
    rewrite Hk. f_equal. auto.
Qed.

Lemma dict_mem_app {V} (k : str) (d d' : dict V) :
  dict_mem k (d ++ d') = dict_mem k d || dict_mem k d'.
Proof.
  induction d as [|[k0 v0] d IH]; simpl; [reflexivity|].
  now rewrite IH, orb_assoc.
Qed.


Lemma add_rule_on rules n r t :
  managers.add_rule n r t {| commission_rules := Some rules |} =
    if blank n
    then (Ok (false, managers.msg_no_name), {| commission_rules := Some rules |})
    else if dict_mem n rules
    then (Ok (false, managers.msg_exists n), {| commission_rules := Some rules |})
    else (Ok (true, managers.msg_added n),
          {| commission_rules :=
               Some (dict_set n {| rate := r; threshold := t |} rules) |}).
Proof. now apply add_rule_run. Qed.

Lemma remove_rule_on rules n :
  managers.remove_rule n {| commission_rules := Some rules |} =
    if (1 <? len rules)%nat then
      if dict_mem n rules
      then (Ok (true, managers.msg_removed n),
            {| commission_rules := Some (dict_del n rules) |})
      else (Ok (false, managers.msg_not_found n),
            {| commission_rules := Some rules |})
    else (Ok (false, managers.msg_last_rule),
          {| commission_rules := Some rules |}).
Proof. now apply remove_rule_run. Qed.

(** X4. On a session without a policy set the methods that read it raise
    [AttributeError] and leave the session alone; [add_rule] does so only
    for a non-blank name, since a blank name is refused before the policy
    set is looked at. The constructor puts the default policy set in
    place. *)
Theorem session_without_policy_set (s : session_state) :
  commission_rules s = None ->
  managers.get_rules s = (Raise AttributeError, s)
  /\ managers.get_rules_list s = (Raise AttributeError, s)
  /\ (forall n, managers.remove_rule n s = (Raise AttributeError, s))
  /\ (forall n r t,
        managers.add_rule n r t s
          = if blank n then (Ok (false, managers.msg_no_name), s)
            else (Raise AttributeError, s))
  /\ (forall d tier,
        validators._get_expected_rate d tier s = (Raise AttributeError, s))
  /\ (forall r, validators.validate r s = (Raise AttributeError, s))
  /\ managers.__init__ s = (Ok tt, seeded_session).
Proof.
  intros H. repeat split; intros;
    unfold managers.get_rules_list, managers.__init__,
      validators._get_expected_rate, validators.validate;
    run_method; rewrite ?truthy_strip, ?H; try reflexivity.
  destruct (blank n); simpl; now rewrite ?H.
Qed.

(** X5. [get_rules_list] lists the tier names in insertion order. A
    successful [add_rule] puts the new name, exactly as given, at the end
    of the list; a successful [remove_rule] takes the name out and keeps
    the order of the others. *)
Theorem rules_list_after_mutation (s : session_state) (rules : dict policy)
    (n : str) :
  holds s rules ->
  unique_keys rules ->
  managers.get_rules_list s = (Ok (keys rules), s)
  /\ (forall r t msg s',
        managers.add_rule n r t s = (Ok (true, msg), s') ->
        managers.get_rules_list s' = (Ok (keys rules ++ [n]), s'))
  /\ (forall msg s',
        managers.remove_rule n s = (Ok (true, msg), s') ->
        managers.get_rules_list s' = (Ok (without n (keys rules)), s')).
Proof.
  intros H Hu. split; [|split].
  - unfold managers.get_rules_list. run_method. now rewrite H.
  - intros r t msg s'. rewrite (add_rule_run _ _ _ _ _ H).
    destruct (blank n); [discriminate|].
    destruct (dict_mem n rules) eqn:E; [discriminate|].
    intros [= _ <-]. unfold managers.get_rules_list. run_method.
    now rewrite keys_dict_set, E.
  - intros msg s'. rewrite (remove_rule_run _ _ _ H).
    destruct (1 <? len rules)%nat; [|discriminate].
    destruct (dict_mem n rules); [|discriminate].
    intros [= _ <-]. unfold managers.get_rules_list. run_method.
    now rewrite keys_dict_del.
Qed.

(** X6. Adding a new tier to a non-empty policy set and removing it again
    restores the session state exactly: both calls succeed and the policy
    set is the one before the two calls. *)
Theorem add_then_remove_restores (s : session_state) (rules : dict policy)
    (n : str) (r : float) (t : Z) :
  holds s rules ->
  rules <> [] ->
  blank n = false ->
  dict_mem n rules = false ->
  exists s1,
    managers.add_rule n r t s = (Ok (true, managers.msg_added n), s1)
    /\ managers.remove_rule n s1 = (Ok (true, managers.msg_removed n), s).
Proof.
  intros H Hne Hb Hm. eexists. split.
  - rewrite (add_rule_run _ _ _ _ _ H), Hb, Hm. reflexivity.
  - rewrite remove_rule_on.
    rewrite (dict_set_absent _ _ _ Hm).
    assert (L : (1 <? len (rules ++ [(n, {| rate := r; threshold := t |})]))%nat
                = true).
    { apply Nat.ltb_lt. unfold len. rewrite length_app. simpl.
      destruct rules; [congruence | simpl; lia]. }
    rewrite L, dict_mem_app. simpl. rewrite str_eqb_refl, orb_true_r.
    rewrite (dict_del_last _ _ _ Hm). now rewrite (holds_eta _ _ H).
Qed.

(** X7. A tier is changed by removing it and adding it again: on a policy
    set with at least two tiers and a present, non-blank name, both calls
    succeed; afterwards the tier has the new rate and threshold, sits at
    the end of the list, and every other tier is as before. *)
Theorem remove_then_add_updates (s : session_state) (rules : dict policy)
    (n : str) (r : float) (t : Z) :
  holds s rules ->
  unique_keys rules ->
  1 < len rules ->
  dict_mem n rules = true ->
  blank n = false ->
  exists s1 rules2,
    managers.remove_rule n s = (Ok (true, managers.msg_removed n), s1)
    /\ managers.add_rule n r t s1
       = (Ok (true, managers.msg_added n),
          {| commission_rules := Some rules2 |})
    /\ rules2 = dict_del n rules ++ [(n, {| rate := r; threshold := t |})]
    /\ dict_get n rules2 = Some {| rate := r; threshold := t |}
    /\ (forall k, k <> n -> dict_get k rules2 = dict_get k rules)
    /\ len rules2 = len rules.
Proof.
  intros H Hu L Hm Hb.
  pose proof (dict_mem_del_same n rules Hu) as Hgone.
  exists {| commission_rules := Some (dict_del n rules) |}.
  exists (dict_set n {| rate := r; threshold := t |} (dict_del n rules)).
  split; [|split; [|split; [|split; [|split]]]].
  - rewrite (remove_rule_run _ _ _ H), Hm.
    apply Nat.ltb_lt in L. now rewrite L.
  - rewrite add_rule_on, Hb, Hgone.
    reflexivity.
  - now apply dict_set_absent.
  - apply dict_get_set_same.
  - intros k Hk. rewrite dict_get_set_other by exact Hk.
    now apply dict_get_del_other.
  - rewrite (dict_set_absent _ _ _ Hgone). unfold len. rewrite length_app. simpl.
    pose proof (length_dict_del n rules Hm). lia.
Qed.

(** X8. No call changes a tier it does not name: [add_rule], successful
    or not, leaves every tier that was in the policy set with its rate and
    threshold (it never overwrites), and [remove_rule] leaves every tier
    other than the one named. *)
Theorem mutations_keep_other_tiers (s : session_state) (rules : dict policy) :
  holds s rules ->
  (forall n r t res s' rules' k,
      managers.add_rule n r t s = (Ok res, s') -> holds s' rules' ->
      dict_mem k rules = true ->
      dict_get k rules' = dict_get k rules)
  /\ (forall n res s' rules' k,
      managers.remove_rule n s = (Ok res, s') -> holds s' rules' ->
      k <> n ->
      dict_get k rules' = dict_get k rules).
Proof.
  intros H. pose proof (holds_eta _ _ H) as Hs. split.
  - intros n r t res s' rules' k. rewrite (add_rule_run _ _ _ _ _ H).
    destruct (blank n); [|destruct (dict_mem n rules) eqn:E];
      intros [= _ <-]; rewrite ?Hs; intros [= <-] Hk; try reflexivity.
    apply dict_get_set_other. intros ->. congruence.
  - intros n res s' rules' k. rewrite (remove_rule_run _ _ _ H).
    destruct (1 <? len rules)%nat; [destruct (dict_mem n rules)|];
      intros [= _ <-]; rewrite ?Hs; intros [= <-] Hk; try reflexivity.
    now apply dict_get_del_other.
Qed.

(** X9. Repeating a call changes nothing more: after [add_rule] a second
    [add_rule] of the same name fails, whatever rate and threshold it
    brings, and after [remove_rule] a second [remove_rule] of the same name
    fails; both leave the session as the first call left it. *)
Theorem repeated_mutation_fails (s : session_state) (rules : dict policy)
    (n : str) :
  holds s rules ->
  unique_keys rules ->
  (forall r t r' t',
      exists res s1 msg,
        managers.add_rule n r t s = (Ok res, s1)
        /\ managers.add_rule n r' t' s1 = (Ok (false, msg), s1))
  /\ (exists res s1 msg,
        managers.remove_rule n s = (Ok res, s1)
        /\ managers.remove_rule n s1 = (Ok (false, msg), s1)).
Proof.
  intros H Hu. pose proof (holds_eta _ _ H) as Hs. split.
  - intros r t r' t'. rewrite (add_rule_run _ _ _ _ _ H).
    destruct (blank n) eqn:B; [|destruct (dict_mem n rules) eqn:E].
    + do 3 eexists. split; [reflexivity|].
      rewrite (add_rule_run _ _ _ _ _ H), B. reflexivity.
    + do 3 eexists. split; [reflexivity|].
      rewrite (add_rule_run _ _ _ _ _ H), B, E. reflexivity.
    + do 3 eexists. split; [reflexivity|].
      rewrite add_rule_on, B.
      assert (M : dict_mem n (dict_set n {| rate := r; threshold := t |} rules)
                  = true)
        by (apply dict_get_mem; rewrite dict_get_set_same; eauto).
      rewrite M. reflexivity.
  - rewrite (remove_rule_run _ _ _ H).
    destruct (1 <? len rules)%nat eqn:L; [destruct (dict_mem n rules) eqn:E|].
    + destruct (1 <? len (dict_del n rules))%nat eqn:L2;
        do 3 eexists; (split; [reflexivity|]);
        rewrite remove_rule_on, (dict_mem_del_same n rules Hu), L2;
        reflexivity.
    + do 3 eexists. split; [reflexivity|].
      rewrite (remove_rule_run _ _ _ H), L, E. reflexivity.
    + do 3 eexists. split; [reflexivity|].
      rewrite (remove_rule_run _ _ _ H), L. reflexivity.
Qed.

(** X10. A name taken from [get_rules_list], as the settings tab does, is
    never reported as not found: [remove_rule] removes it when the policy
    set has more than one tier and refuses with the last-rule message when
    it has one. *)
Theorem listed_name_is_removable (s : session_state) (rules : dict policy)
    (names : list str) (n : str) :
  holds s rules ->
  managers.get_rules_list s = (Ok names, s) ->
  In n names ->
  managers.remove_rule n s =
    if (1 <? List.length names)%nat
    then (Ok (true, managers.msg_removed n),
          {| commission_rules := Some (dict_del n rules) |})
    else (Ok (false, managers.msg_last_rule), s).
Proof.
  intros H Hl Hin.
  unfold managers.get_rules_list, managers.get_rules, read_rules, bind, ret in Hl.
  rewrite H in Hl. injection Hl as <-.
  rewrite (remove_rule_run _ _ _ H).
  apply dict_mem_In in Hin. rewrite Hin.
  unfold len, keys. now rewrite length_map.
Qed.

Lemma run_ops_invariant ops s rules :
  holds s rules -> policy_invariant rules ->
  exists rules',
    run_ops ops s = (Ok tt, {| commission_rules := Some rules' |})
    /\ policy_invariant rules'.
Proof.
  revert s rules. induction ops as [|o ops IH]; intros s rules H Hinv.
  - exists rules. simpl. unfold ret. now rewrite (holds_eta _ _ H) at 1.
  - destruct (run_op_invariant o s rules H Hinv) as (rules1 & Hrun & Hinv1).
    destruct (IH {| commission_rules := Some rules1 |} rules1 eq_refl Hinv1)
      as (rules2 & Hrun2 & Hinv2).
    exists rules2. split; [|exact Hinv2].
    simpl. unfold bind at 1. now rewrite Hrun.
Qed.

(** X11. From any session in which the policy set, if there is one, has
    unique, non-blank names and at least one tier, the constructor
    followed by any sequence of [add_rule] and [remove_rule] calls runs
    without raising and ends with a policy set that again has at least one
    tier and unique, non-blank names. *)
Theorem constructor_then_ops_invariant (s : session_state) (ops : list op) :
  (forall rules, holds s rules -> policy_invariant rules /\ no_blank_key rules) ->
  exists rules',
    (managers.__init__ ;;; run_ops ops) s
      = (Ok tt, {| commission_rules := Some rules' |})
    /\ policy_invariant rules'
    /\ no_blank_key rules'.
Proof.
  intros Hs.
  assert (Hinit : exists rules0,
             managers.__init__ s = (Ok tt, {| commission_rules := Some rules0 |})
             /\ policy_invariant rules0 /\ no_blank_key rules0).
  { destruct s as [[rules|]].
    - exists rules. split; [reflexivity|]. now apply Hs.
    - exists managers.default_rules. split; [reflexivity|]. split.
      + split; [discriminate|].
        unfold unique_keys. repeat constructor; simpl; intuition discriminate.
      + apply default_rules_no_blank_key. }
  destruct Hinit as (rules0 & Hi & Hinv & Hnb).
  destruct (run_ops_invariant ops
              {| commission_rules := Some rules0 |} rules0 eq_refl Hinv)
    as (rules' & Hrun & Hinv').
  exists rules'. unfold bind. rewrite Hi. split; [exact Hrun|]. split.
  - exact Hinv'.
  - exact (run_ops_no_blank_key ops {| commission_rules := Some rules0 |}
             rules0 rules' eq_refl Hinv Hnb Hrun).
Qed.

(* ================================================================= *)
(** ** More on the batch metrics *)

Lemma validates_issues_at s r :
  validates s r -> validators.validate r s = (Ok (issues_at s r), s).
Proof. intros [i Hi]. unfold issues_at. now rewrite Hi. Qed.

Lemma validate_result_state s r res s' :
  validators.validate r s = (res, s') -> s' = s.
Proof.
  intros E. pose proof (read_only_validate r s) as H. now rewrite E in H.
Qed.

(** [all_issues] returns exactly when [validate] returns on every row. *)
Lemma all_issues_ok s df :
  Forall (validates s) df ->
  analyzers.all_issues df s = (Ok (List.concat (map (issues_at s) df)), s).
Proof.
  induction 1 as [|r df Hr _ IH]; simpl; [reflexivity|].
  unfold bind at 1. rewrite (validates_issues_at s r Hr).
  unfold bind at 1. now rewrite IH.
Qed.

Lemma all_issues_inv s df flagged s' :
  analyzers.all_issues df s = (Ok flagged, s') ->
  s' = s /\ Forall (validates s) df.
Proof.
  revert flagged s'. induction df as [|r df IH]; intros flagged s'; simpl.
  - intros [= _ <-]. now split.
  - unfold bind at 1. destruct (validators.validate r s) as [[i|e] s1] eqn:E;
      [|discriminate].
    apply validate_result_state in E as Hs. subst s1.
    unfold bind at 1.
    destruct (analyzers.all_issues df s) as [[f|e] s2] eqn:E2; [|discriminate].
    destruct (IH _ _ eq_refl) as [-> Hall].
    intros [= _ <-]. split; [reflexivity|].
    constructor; [now exists i | exact Hall].
Qed.

(** The first row on which [validate] raises decides the exception. *)
Lemma all_issues_raise s rules df :
  holds s rules ->
  Exists (overflows s) df ->
  analyzers.all_issues df s = (Raise OverflowError, s).
Proof.
  intros H. induction df as [|r df IH]; intros Hex; [inversion Hex|].
  simpl. unfold bind at 1.
  destruct (validate_ok_or_overflow s rules r H) as [(i & Hi & _) | Ho].
  - rewrite Hi. unfold bind at 1.
    inversion Hex as [? ? Hr | ? ? Hr]; subst.
    + unfold overflows in Hr. congruence.
    + now rewrite (IH Hr).
  - now rewrite Ho.
Qed.

Lemma validates_or_overflows s rules r :
  holds s rules -> validates s r \/ overflows s r.
Proof.
  intros H.
  destruct (validate_ok_or_overflow s rules r H) as [(i & Hi & _) | Ho];
    [left; now exists i | now right].
Qed.

Lemma Forall_or_Exists s rules df :
  holds s rules -> Forall (validates s) df \/ Exists (overflows s) df.
Proof.
  intros H. induction df as [|r df [IH | IH]].
  - now left.
  - destruct (validates_or_overflows s rules r H) as [Hv | Ho].
    + left. now constructor.
    + right. now constructor.
  - right. now constructor 2.
Qed.

Lemma calculate_metrics_ok sum mean s df :
  Forall (validates s) df ->
  analyzers.calculate_metrics sum mean df s
    = (Ok {| total_commissions := sum (map commission_amount df);
             average_rate := mean (map commission_rate df);
             total_deals := List.length df;
             flagged_count := issue_total (map (issues_at s) df) |}, s).
Proof.
  intros Hall. unfold analyzers.calculate_metrics, bind.
  rewrite (all_issues_ok s df Hall). unfold ret.
  now rewrite length_concat_total.
Qed.

Lemma calculate_metrics_inv sum mean s df m s' :
  analyzers.calculate_metrics sum mean df s = (Ok m, s') ->
  s' = s /\ Forall (validates s) df.
Proof.
  unfold analyzers.calculate_metrics, bind.
  destruct (analyzers.all_issues df s) as [[f|e] s1] eqn:E; [|discriminate].
  apply all_issues_inv in E as [-> Hall]. now intros [= _ <-].
Qed.

Lemma issue_total_app a b : issue_total (a ++ b) = (issue_total a + issue_total b)%nat.
Proof. unfold issue_total. now rewrite map_app, list_sum_app. Qed.

Lemma issue_total_perm a b : Permutation a b -> issue_total a = issue_total b.
Proof.
  unfold issue_total. induction 1; simpl; lia.
Qed.

Lemma issue_total_bound s rules df :
  holds s rules -> Forall (validates s) df ->
  issue_total (map (issues_at s) df) <= 3 * List.length df.
Proof.
  intros H. unfold issue_total. induction 1 as [|r df Hr _ IH]; simpl; [lia|].
  pose proof (validate_at_most_three s rules r _ _ H (validates_issues_at s r Hr)).
  lia.
Qed.

(** X12. The counts of a batch add up: when [calculate_metrics] returns on
    two batches, it returns on their concatenation, with [flagged_count]
    and [total_deals] the sums of the two. *)
Theorem metrics_of_concatenation (sum mean : list float -> float)
    (s : session_state) (df1 df2 : list row) (m1 m2 : metrics) :
  analyzers.calculate_metrics sum mean df1 s = (Ok m1, s) ->
  analyzers.calculate_metrics sum mean df2 s = (Ok m2, s) ->
  exists m,
    analyzers.calculate_metrics sum mean (df1 ++ df2) s = (Ok m, s)
    /\ flagged_count m = (flagged_count m1 + flagged_count m2)%nat
    /\ total_deals m = (total_deals m1 + total_deals m2)%nat.
Proof.
  intros E1 E2.
  destruct (calculate_metrics_inv _ _ _ _ _ _ E1) as [_ H1].
  destruct (calculate_metrics_inv _ _ _ _ _ _ E2) as [_ H2].
  rewrite (calculate_metrics_ok sum mean s df1 H1) in E1.
  rewrite (calculate_metrics_ok sum mean s df2 H2) in E2.
  injection E1 as <-. injection E2 as <-.
  eexists. split.
  - apply calculate_metrics_ok. apply Forall_app. now split.
  - simpl. now rewrite map_app, issue_total_app, length_app.
Qed.

(** X13. Whenever [calculate_metrics] returns, [flagged_count] is at most
    three times [total_deals]. *)
Theorem flagged_count_bound (sum mean : list float -> float)
    (s s' : session_state) (df : list row) (m : metrics) :
  analyzers.calculate_metrics sum mean df s = (Ok m, s') ->
  flagged_count m <= 3 * total_deals m.
Proof.
  intros E. destruct (calculate_metrics_inv _ _ _ _ _ _ E) as [-> Hall].
  rewrite (calculate_metrics_ok sum mean s df Hall) in E. injection E as <-.
  simpl. destruct s as [[rules|]].
  - now apply (issue_total_bound _ rules).
  - destruct Hall as [|r df [i Hi] _]; [unfold issue_total; simpl; lia|].
    unfold validators.validate, bind, managers.get_rules, read_rules in Hi.
    discriminate.
Qed.

(** X14. The counts do not depend on the order of the records: when
    [calculate_metrics] returns on a batch, it returns on every
    permutation of it, with the same [flagged_count] and [total_deals]. *)
Theorem metrics_of_permutation (sum mean : list float -> float)
    (s : session_state) (df df' : list row) (m : metrics) :
  Permutation df df' ->
  analyzers.calculate_metrics sum mean df s = (Ok m, s) ->
  exists m',
    analyzers.calculate_metrics sum mean df' s = (Ok m', s)
    /\ flagged_count m' = flagged_count m
    /\ total_deals m' = total_deals m.
Proof.
  intros P E. destruct (calculate_metrics_inv _ _ _ _ _ _ E) as [_ Hall].
  rewrite (calculate_metrics_ok sum mean s df Hall) in E. injection E as <-.
  eexists. split.
  - apply calculate_metrics_ok. eapply Permutation_Forall; eauto.
  - simpl. split.
    + apply issue_total_perm, Permutation_map, Permutation_sym, P.
    + symmetry. now apply Permutation_length.
Qed.

Lemma calculate_metrics_raise sum mean s rules df :
  holds s rules ->
  Exists (overflows s) df ->
  analyzers.calculate_metrics sum mean df s = (Raise OverflowError, s).
Proof.
  intros H Hex. unfold analyzers.calculate_metrics, bind.
  now rewrite (all_issues_raise s rules df H Hex).
Qed.

(** X15. On a session that holds a policy set, [calculate_metrics] either
    returns or raises [OverflowError]; it raises exactly when [validate]
    raises on some record of the batch, so one record of a tier with an
    unconvertible threshold is enough to lose the metrics of the batch. *)
Theorem metrics_outcomes (sum mean : list float -> float)
    (s : session_state) (rules : dict policy) (df : list row) :
  holds s rules ->
  (analyzers.calculate_metrics sum mean df s = (Raise OverflowError, s)
   <-> exists r, In r df /\ validators.validate r s = (Raise OverflowError, s))
  /\ ((exists m, analyzers.calculate_metrics sum mean df s = (Ok m, s))
      <-> forall r, In r df -> exists issues,
            validators.validate r s = (Ok issues, s)).
Proof.
  intros H.
  pose proof (calculate_metrics_raise sum mean s rules df H) as Hraise.
  split; split.
  - intros E. destruct (Forall_or_Exists s rules df H) as [Hall | Hex].
    + rewrite (calculate_metrics_ok sum mean s df Hall) in E. discriminate.
    + now apply Exists_exists in Hex.
  - intros Hex. apply Hraise. now apply Exists_exists.
  - intros [m E]. destruct (calculate_metrics_inv _ _ _ _ _ _ E) as [_ Hall].
    now apply Forall_forall.
  - intros Hall. eexists. apply calculate_metrics_ok. now apply Forall_forall.
Qed.

(** X16. On a session without a policy set, [calculate_metrics] returns
    only for the empty batch, with both counts zero; on any other batch it
    raises [AttributeError]. *)
Theorem metrics_without_policy_set (sum mean : list float -> float)
    (s : session_state) (df : list row) :
  commission_rules s = None ->
  analyzers.calculate_metrics sum mean df s =
    match df with
    | [] => (Ok {| total_commissions := sum [];
                   average_rate := mean [];
                   total_deals := 0%nat;
                   flagged_count := 0%nat |}, s)
    | _ :: _ => (Raise AttributeError, s)
    end.
Proof.
  intros H. destruct df as [|r df]; [reflexivity|].
  unfold analyzers.calculate_metrics. simpl.
  unfold validators.validate, bind, managers.get_rules, read_rules.
  now rewrite H.
Qed.

(* ================================================================= *)
(** ** The validation table *)

Lemma render_validation_tab_ok s df :
  Forall (validates s) df ->
  tabs.render_validation_tab df s = (Ok (map (entry_of s) df), s).
Proof.
  induction 1 as [|r df Hr _ IH]; simpl; [reflexivity|].
  unfold bind at 1. rewrite (validates_issues_at s r Hr).
  unfold bind at 1. now rewrite IH.
Qed.

Lemma render_validation_tab_inv s df t s' :
  tabs.render_validation_tab df s = (Ok t, s') ->
  s' = s /\ Forall (validates s) df.
Proof.
  revert t s'. induction df as [|r df IH]; intros t s'; simpl.
  - intros [= _ <-]. now split.
  - unfold bind at 1. destruct (validators.validate r s) as [[i|e] s1] eqn:E;
      [|discriminate].
    apply validate_result_state in E as Hs. subst s1.
    unfold bind at 1.
    destruct (tabs.render_validation_tab df s) as [[f|e] s2] eqn:E2;
      [|discriminate].
    destruct (IH _ _ eq_refl) as [-> Hall].
    intros [= _ <-]. split; [reflexivity|].
    constructor; [now exists i | exact Hall].
Qed.

Lemma fail_rows_le_total s df :
  fail_rows (map (entry_of s) df) <= issue_total (map (issues_at s) df).
Proof.
  unfold fail_rows, issue_total. induction df as [|r df IH]; simpl; [lia|].
  unfold app.status_of. destruct (issues_at s r); simpl; lia.
Qed.

(** X17. The validation table and the metrics agree: the loop of
    [render_validation_tab] returns exactly when [calculate_metrics] does;
    the table then has one entry per record, in the order of the batch,
    its issue counts add up to [flagged_count], an entry has status PASS
    iff its issue count is zero, and the number of FAIL entries is at most
    [flagged_count]. *)
Theorem validation_tab_matches_metrics (sum mean : list float -> float)
    (s : session_state) (df : list row) :
  ((exists t, tabs.render_validation_tab df s = (Ok t, s))
   <-> (exists m, analyzers.calculate_metrics sum mean df s = (Ok m, s)))
  /\ forall t m,
      tabs.render_validation_tab df s = (Ok t, s) ->
      analyzers.calculate_metrics sum mean df s = (Ok m, s) ->
      list_sum (map tabs.res_issue_count t) = flagged_count m
      /\ List.length t = total_deals m
      /\ map tabs.res_deal_id t = map deal_id df
      /\ fail_rows t <= flagged_count m
      /\ forall e, In e t ->
           tabs.res_issue_count e = List.length (tabs.res_issues e)
           /\ (tabs.res_status e = app.PASS <-> tabs.res_issue_count e = 0%nat).
Proof.
  split.
  - split.
    + intros [t E]. apply render_validation_tab_inv in E as [_ Hall].
      eexists. now apply calculate_metrics_ok.
    + intros [m E]. apply calculate_metrics_inv in E as [_ Hall].
      eexists. now apply render_validation_tab_ok.
  - intros t m Et Em.
    destruct (render_validation_tab_inv _ _ _ _ Et) as [_ Hall].
    rewrite (render_validation_tab_ok s df Hall) in Et. injection Et as <-.
    rewrite (calculate_metrics_ok sum mean s df Hall) in Em. injection Em as <-.
    simpl. repeat split.
    + unfold issue_total. rewrite !map_map. reflexivity.
    + apply length_map.
    + rewrite map_map. reflexivity.
    + apply fail_rows_le_total.
    + apply in_map_iff in H as (r & <- & _). reflexivity.
    + apply in_map_iff in H as (r & <- & _). simpl. unfold app.status_of.
      destruct (issues_at s r); simpl; [reflexivity | discriminate].
    + apply in_map_iff in H as (r & <- & _). simpl. unfold app.status_of.
      intros ->. reflexivity.
Qed.

(* ================================================================= *)
(** ** Records with missing figures *)

Lemma Prim2SF_nan (x : float) : is_nan x = true -> Prim2SF x = S754_nan.
Proof. intros H. unfold Prim2SF. now rewrite H. Qed.

Lemma ltb_nan_r (x y : float) : is_nan y = true -> (x <? y) = false.
Proof.
  intros H. rewrite ltb_spec, (Prim2SF_nan y H).
  unfold SFltb, SFcompare. now destruct (Prim2SF x).
Qed.

Lemma ltb_nan_l (x y : float) : is_nan x = true -> (x <? y) = false.
Proof.
  intros H. rewrite ltb_spec, (Prim2SF_nan x H). reflexivity.
Qed.

Lemma is_nan_Prim2SF (x : float) : Prim2SF x = S754_nan -> is_nan x = true.
Proof.
  intros H. unfold is_nan. rewrite eqb_spec, H. reflexivity.
Qed.

Lemma is_nan_sub_l (x y : float) : is_nan x = true -> is_nan (x - y) = true.
Proof.
  intros H. apply is_nan_Prim2SF. rewrite sub_spec, (Prim2SF_nan x H).
  reflexivity.
Qed.

Lemma is_nan_mul_l (x y : float) : is_nan x = true -> is_nan (x * y) = true.
Proof.
  intros H. apply is_nan_Prim2SF. rewrite mul_spec, (Prim2SF_nan x H).
  reflexivity.
Qed.

Lemma is_nan_abs (x : float) : is_nan x = true -> is_nan (abs x) = true.
Proof.
  intros H. apply is_nan_Prim2SF. rewrite abs_spec, (Prim2SF_nan x H).
  reflexivity.
Qed.

(** X18. Missing figures pass silently. For a record of a tier of the
    policy set whose threshold converts to a float: with a NaN commission
    rate [validate] returns no rate-mismatch issue, only the cap and
    negative-deal issues that apply; with a NaN deal size it returns
    neither the cap issue nor the negative-deal issue, only the rate
    mismatch against the base rate if there is one; with both missing it
    returns no issue at all, whatever the commission amount, and the
    record has status PASS. *)
Theorem nan_record_passes (s : session_state) (rules : dict policy) (r : row)
    (p : policy) (t : float) :
  holds s rules ->
  dict_get (product_tier r) rules = Some p ->
  float_of_int (threshold p) = Ok t ->
  (is_nan (commission_rate r) = true ->
     validators.validate r s
       = (Ok ((if gt (commission_amount r) (deal_size r * 0.15)
               then [lit "Commission exceeds 15% cap"] else [])
              ++ (if (deal_size r <? 0)
                  then [lit "Negative deal size"] else [])), s))
  /\ (is_nan (deal_size r) = true ->
      validators.validate r s
        = (Ok (if gt (abs (commission_rate r - rate p)) 0.001
               then [lit "Rate mismatch: expected " ++ format_3f (rate p)
                     ++ lit ", got " ++ format_3f (commission_rate r)]
               else []), s))
  /\ (is_nan (commission_rate r) = true -> is_nan (deal_size r) = true ->
      validators.validate r s = (Ok [], s)
      /\ forall issues s',
           validators.validate r s = (Ok issues, s') ->
           app.status_of issues = app.PASS).
Proof.
  intros H Hp Ht.
  assert (Hrate : is_nan (commission_rate r) = true ->
            forall e, rate_mismatch r e = false).
  { intros Hn e. unfold rate_mismatch, gt.
    apply ltb_nan_r, is_nan_abs, is_nan_sub_l, Hn. }
  assert (Hsize : is_nan (deal_size r) = true ->
            over_cap r = false /\ negative_deal r = false
            /\ gt (deal_size r) (t * 1.2) = false).
  { intros Hn. unfold over_cap, negative_deal, gt. repeat split.
    - apply ltb_nan_l, is_nan_mul_l, Hn.
    - apply ltb_nan_l, Hn.
    - apply ltb_nan_r, Hn. }
  rewrite (validate_cases s rules r H), Hp, Ht. unfold expected_issues.
  split; [|split].
  - intros Hn. rewrite (Hrate Hn). reflexivity.
  - intros Hn. destruct (Hsize Hn) as (Hc & Hg & Ha).
    rewrite Ha, Hc, Hg. unfold rate_mismatch, validators.msg_rate_mismatch.
    destruct (gt (abs (commission_rate r - rate p)) 0.001); reflexivity.
  - intros Hr Hd. destruct (Hsize Hd) as (Hc & Hg & Ha).
    rewrite (Hrate Hr), Hc, Hg. split; [reflexivity|].
    intros issues s' [= <- _]. reflexivity.
Qed.

(* ================================================================= *)
(** ** A threshold too large for a float *)

(** X19. [add_rule] accepts any threshold. When the threshold of a new
    tier does not convert to a float, the tier is added all the same, and
    from then on [validate] raises [OverflowError] on every record of that
    tier, and [calculate_metrics] on every batch that contains one. *)
Theorem unconvertible_threshold_breaks_validation
    (s : session_state) (rules : dict policy) (n : str) (r : float) (z : Z) :
  holds s rules ->
  blank n = false ->
  dict_mem n rules = false ->
  float_of_int z = Raise OverflowError ->
  exists s1,
    managers.add_rule n r z s = (Ok (true, managers.msg_added n), s1)
    /\ (forall rw, product_tier rw = n ->
          validators.validate rw s1 = (Raise OverflowError, s1))
    /\ (forall sum mean df rw, In rw df -> product_tier rw = n ->
          analyzers.calculate_metrics sum mean df s1
            = (Raise OverflowError, s1)).
Proof.
  intros H Hb Hm Hz.
  set (rules1 := dict_set n {| rate := r; threshold := z |} rules).
  exists {| commission_rules := Some rules1 |}.
  assert (Hv : forall rw, product_tier rw = n ->
            validators.validate rw {| commission_rules := Some rules1 |}
              = (Raise OverflowError, {| commission_rules := Some rules1 |})).
  { intros rw Ht.
    rewrite (validate_cases {| commission_rules := Some rules1 |} rules1 rw
               eq_refl), Ht.
    unfold rules1. rewrite dict_get_set_same. simpl. now rewrite Hz. }
  split; [|split].
  - rewrite (add_rule_run _ _ _ _ _ H), Hb, Hm. reflexivity.
  - exact Hv.
  - intros sum mean df rw Hin Ht.
    apply (calculate_metrics_raise sum mean
             {| commission_rules := Some rules1 |} rules1 df eq_refl).
    apply Exists_exists. exists rw. split; [exact Hin | now apply Hv].
Qed.

(* ================================================================= *)
(** ** The rule store seen from the validator *)

Lemma validate_on rules r :
  validators.validate r {| commission_rules := Some rules |} =
    match dict_get (product_tier r) rules with
    | None => (Ok [validators.msg_unknown_tier (product_tier r)],
               {| commission_rules := Some rules |})
    | Some p =>
        match float_of_int (threshold p) with
        | Ok t =>
            (Ok (expected_issues r
                   (if gt (deal_size r) (t * 1.2) then rate p * 1.1 else rate p)),
             {| commission_rules := Some rules |})
        | Raise e => (Raise e, {| commission_rules := Some rules |})
        end
    end.
Proof. now apply validate_cases. Qed.

(** [validate] looks at the policy set only through the entry of the
    record's tier. *)
Lemma validate_depends_on_tier_entry rules rules' r :
  dict_get (product_tier r) rules' = dict_get (product_tier r) rules ->
  fst (validators.validate r {| commission_rules := Some rules' |})
    = fst (validators.validate r {| commission_rules := Some rules |}).
Proof.
  intros E.
  rewrite !validate_on, E. destruct (dict_get (product_tier r) rules) as [p|]; [|reflexivity].
  now destruct (float_of_int (threshold p)).
Qed.

Lemma run_ops_add_ok n r t ops s res s1 :
  managers.add_rule n r t s = (Ok res, s1) ->
  run_ops (AddRule n r t :: ops) s = run_ops ops s1.
Proof.
  intros E. cbn [run_ops run_op]. unfold bind. now rewrite E.
Qed.

(** X20. Two new tiers can be added in either order: both calls succeed
    either way, every tier has the same rate and threshold in the two
    resulting policy sets, and only the order of the two new names in the
    list differs. *)
Theorem add_rule_order_independent (s : session_state) (rules : dict policy)
    (n1 n2 : str) (r1 r2 : float) (t1 t2 : Z) :
  holds s rules ->
  blank n1 = false -> blank n2 = false ->
  dict_mem n1 rules = false -> dict_mem n2 rules = false ->
  n1 <> n2 ->
  exists ra rb,
    run_ops [AddRule n1 r1 t1; AddRule n2 r2 t2] s
      = (Ok tt, {| commission_rules := Some ra |})
    /\ run_ops [AddRule n2 r2 t2; AddRule n1 r1 t1] s
      = (Ok tt, {| commission_rules := Some rb |})
    /\ (forall k, dict_get k ra = dict_get k rb)
    /\ keys ra = keys rules ++ [n1; n2]
    /\ keys rb = keys rules ++ [n2; n1].
Proof.
  intros H B1 B2 M1 M2 Hne.
  set (p1 := {| rate := r1; threshold := t1 |}).
  set (p2 := {| rate := r2; threshold := t2 |}).
  assert (M12 : dict_mem n2 (dict_set n1 p1 rules) = false).
  { apply dict_mem_not_In. rewrite keys_dict_set, M1.
    intros Hin. apply in_app_or in Hin as [Hin | [E | []]];
      [apply dict_mem_not_In in M2; tauto | congruence]. }
  assert (M21 : dict_mem n1 (dict_set n2 p2 rules) = false).
  { apply dict_mem_not_In. rewrite keys_dict_set, M2.
    intros Hin. apply in_app_or in Hin as [Hin | [E | []]];
      [apply dict_mem_not_In in M1; tauto | congruence]. }
  exists (dict_set n2 p2 (dict_set n1 p1 rules)),
         (dict_set n1 p1 (dict_set n2 p2 rules)).
  unfold p1, p2 in *. clear p1 p2.
  split; [|split; [|split; [|split]]].
  - erewrite run_ops_add_ok
      by (rewrite (add_rule_run _ _ _ _ _ H), B1, M1; reflexivity).
    erewrite run_ops_add_ok
      by (rewrite add_rule_on, B2, M12; reflexivity).
    reflexivity.
  - erewrite run_ops_add_ok
      by (rewrite (add_rule_run _ _ _ _ _ H), B2, M2; reflexivity).
    erewrite run_ops_add_ok
      by (rewrite add_rule_on, B1, M21; reflexivity).
    reflexivity.
  - intros k. destruct (str_eqb k n1) eqn:E1; [|destruct (str_eqb k n2) eqn:E2].
    + apply str_eqb_eq in E1. subst k.
      rewrite dict_get_set_other by exact Hne.
      now rewrite !dict_get_set_same.
    + apply str_eqb_eq in E2. subst k.
      rewrite dict_get_set_same.
      rewrite dict_get_set_other by (intros E; now apply Hne).
      now rewrite dict_get_set_same.
    + apply str_eqb_neq in E1. apply str_eqb_neq in E2.
      now rewrite !dict_get_set_other by assumption.
  - rewrite keys_dict_set, M12, keys_dict_set, M1, <- app_assoc. reflexivity.
  - rewrite keys_dict_set, M21, keys_dict_set, M2, <- app_assoc. reflexivity.
Qed.

(** X21. After a successful [remove_rule], [validate] reports every record
    of the removed tier as an unknown tier, and gives every record of
    another tier the result it gave before. *)
Theorem validate_after_remove_rule (s : session_state) (rules : dict policy)
    (n : str) (msg : str) (s1 : session_state) :
  holds s rules ->
  unique_keys rules ->
  managers.remove_rule n s = (Ok (true, msg), s1) ->
  (forall rw, product_tier rw = n ->
     validators.validate rw s1
       = (Ok [lit "Unknown product tier: " ++ n], s1))
  /\ (forall rw, product_tier rw <> n ->
        fst (validators.validate rw s1) = fst (validators.validate rw s)).
Proof.
  intros H Hu. rewrite (remove_rule_run _ _ _ H).
  destruct (1 <? len rules)%nat; [|discriminate].
  destruct (dict_mem n rules); [|discriminate].
  intros [= _ <-]. split.
  - intros rw Ht.
    rewrite validate_on, Ht.
    pose proof (dict_mem_del_same n rules Hu) as Hgone.
    apply dict_get_None in Hgone. now rewrite Hgone.
  - intros rw Ht. rewrite (holds_eta _ _ H).
    apply validate_depends_on_tier_entry. now apply dict_get_del_other.
Qed.

(** X22. After a successful [add_rule], [validate] no longer reports the
    records of the new tier as unknown: with a threshold that converts to
    a float it checks them against the new rate, accelerated above the new
    threshold. Records of every other tier get the result they got
    before. *)
Theorem validate_after_add_rule (s : session_state) (rules : dict policy)
    (n : str) (r : float) (z : Z) (t : float) (msg : str)
    (s1 : session_state) :
  holds s rules ->
  managers.add_rule n r z s = (Ok (true, msg), s1) ->
  float_of_int z = Ok t ->
  (forall rw, product_tier rw = n ->
     validators.validate rw s
       = (Ok [lit "Unknown product tier: " ++ n], s)
     /\ validators.validate rw s1
       = (Ok (expected_issues rw
                (if gt (deal_size rw) (t * 1.2) then r * 1.1 else r)), s1))
  /\ (forall rw, product_tier rw <> n ->
        fst (validators.validate rw s1) = fst (validators.validate rw s)).
Proof.
  intros H. rewrite (add_rule_run _ _ _ _ _ H).
  destruct (blank n); [discriminate|].
  destruct (dict_mem n rules) eqn:Hm; [discriminate|].
  intros [= _ <-] Hz. split.
  - intros rw Ht. split.
    + rewrite (validate_cases s rules rw H), Ht.
      apply dict_get_None in Hm. now rewrite Hm.
    + rewrite validate_on, Ht.
      rewrite dict_get_set_same. simpl. now rewrite Hz.
  - intros rw Ht. rewrite (holds_eta _ _ H).
    apply validate_depends_on_tier_entry. now apply dict_get_set_other.
Qed.

(* ================================================================= *)
(** ** The further properties at concrete inputs *)

Ltac concrete_unique_keys :=
  unfold unique_keys; repeat constructor; simpl; intuition discriminate.

Lemma expected_rate_errors_witness :
  validators._get_expected_rate 50000 (lit "gold") seeded_session
    = (Raise (KeyError (lit "gold")), seeded_session)
  /\ exists e, validators._get_expected_rate 50000 (lit "premium") seeded_session
               = (Ok e, seeded_session).
Proof.
  split.
  - apply (proj1 (proj1 (expected_rate_errors seeded_session
                           managers.default_rules 50000 (lit "gold") eq_refl))).
    reflexivity.
  - apply (proj1 (proj2 (proj2 (expected_rate_errors seeded_session
                           managers.default_rules 50000 (lit "premium") eq_refl)
                    {| rate := 0.07; threshold := 100000 |} eq_refl))).
    exists 100000. reflexivity.
Defined.

Lemma validate_outcomes_witness :
  (exists issues,
      validators.validate (deal (lit "gold") 50000 0.05 2500) seeded_session
        = (Ok issues, seeded_session)
      /\ List.length issues <= 3)
  \/ validators.validate (deal (lit "gold") 50000 0.05 2500) seeded_session
     = (Raise OverflowError, seeded_session).
Proof.
  exact (proj2 (proj2 (proj2 (validate_outcomes seeded_session
                                managers.default_rules
                                (deal (lit "gold") 50000 0.05 2500) eq_refl)))).
Defined.

Lemma session_without_policy_set_witness :
  managers.remove_rule (lit "premium") fresh_session
    = (Raise AttributeError, fresh_session)
  /\ managers.add_rule (lit " ") 0.05 0 fresh_session
    = (Ok (false, managers.msg_no_name), fresh_session)
  /\ managers.add_rule (lit "gold") 0.05 0 fresh_session
    = (Raise AttributeError, fresh_session).
Proof.
  pose proof (session_without_policy_set fresh_session eq_refl)
    as (_ & _ & Hrem & Hadd & _).
  split; [|split].
  - exact (Hrem (lit "premium")).
  - exact (Hadd (lit " ") 0.05 0%Z).
  - exact (Hadd (lit "gold") 0.05 0%Z).
Defined.

Lemma rules_list_after_mutation_witness :
  managers.get_rules_list seeded_session
    = (Ok [lit "standard"; lit "premium"; lit "enterprise"], seeded_session)
  /\ managers.get_rules_list
       (snd (managers.add_rule (lit " gold ") 0.08 250000 seeded_session))
     = (Ok [lit "standard"; lit "premium"; lit "enterprise"; lit " gold "],
        snd (managers.add_rule (lit " gold ") 0.08 250000 seeded_session))
  /\ managers.get_rules_list
       (snd (managers.remove_rule (lit "premium") seeded_session))
     = (Ok [lit "standard"; lit "enterprise"],
        snd (managers.remove_rule (lit "premium") seeded_session)).
Proof.
  assert (Hu : unique_keys managers.default_rules) by concrete_unique_keys.
  split; [|split].
  - exact (proj1 (rules_list_after_mutation seeded_session
                    managers.default_rules (lit "gold") eq_refl Hu)).
  - exact (proj1 (proj2 (rules_list_after_mutation seeded_session
                           managers.default_rules (lit " gold ") eq_refl Hu))
             0.08 250000%Z _ _ eq_refl).
  - exact (proj2 (proj2 (rules_list_after_mutation seeded_session
                           managers.default_rules (lit "premium") eq_refl Hu))
             _ _ eq_refl).
Defined.

Lemma add_then_remove_restores_witness :
  exists s1,
    managers.add_rule (lit "gold") 0.08 250000 seeded_session
      = (Ok (true, managers.msg_added (lit "gold")), s1)
    /\ managers.remove_rule (lit "gold") s1
       = (Ok (true, managers.msg_removed (lit "gold")), seeded_session).
Proof.
  apply (add_then_remove_restores seeded_session managers.default_rules
           (lit "gold") 0.08 250000);
    [reflexivity | discriminate | reflexivity | reflexivity].
Defined.

Lemma remove_then_add_updates_witness :
  exists s1 rules2,
    managers.remove_rule (lit "standard") seeded_session
      = (Ok (true, managers.msg_removed (lit "standard")), s1)
    /\ managers.add_rule (lit "standard") 0.06 10000 s1
       = (Ok (true, managers.msg_added (lit "standard")),
          {| commission_rules := Some rules2 |})
    /\ keys rules2 = [lit "premium"; lit "enterprise"; lit "standard"]
    /\ dict_get (lit "standard") rules2
       = Some {| rate := 0.06; threshold := 10000 |}.
Proof.
  assert (Hu : unique_keys managers.default_rules) by concrete_unique_keys.
  destruct (remove_then_add_updates seeded_session managers.default_rules
              (lit "standard") 0.06 10000 eq_refl Hu)
    as (s1 & rules2 & H1 & H2 & H3 & H4 & _);
    [simpl; lia | reflexivity | reflexivity |].
  exists s1, rules2. repeat split; try assumption.
  rewrite H3. reflexivity.
Defined.

Lemma mutations_keep_other_tiers_witness :
  dict_get (lit "premium")
    (dict_set (lit "gold") {| rate := 0.08; threshold := 250000 |}
       managers.default_rules)
    = dict_get (lit "premium") managers.default_rules
  /\ dict_get (lit "premium") (dict_del (lit "standard") managers.default_rules)
     = dict_get (lit "premium") managers.default_rules.
Proof.
  split.
  - apply (proj1 (mutations_keep_other_tiers seeded_session
                    managers.default_rules eq_refl)
             (lit "gold") 0.08 250000%Z (true, managers.msg_added (lit "gold"))
             {| commission_rules :=
                  Some (dict_set (lit "gold")
                          {| rate := 0.08; threshold := 250000 |}
                          managers.default_rules) |});
      reflexivity.
  - apply (proj2 (mutations_keep_other_tiers seeded_session
                    managers.default_rules eq_refl)
             (lit "standard") (true, managers.msg_removed (lit "standard"))
             {| commission_rules :=
                  Some (dict_del (lit "standard") managers.default_rules) |});
      [reflexivity | reflexivity | discriminate].
Defined.

Lemma repeated_mutation_fails_witness :
  (exists res s1 msg,
      managers.add_rule (lit "gold") 0.08 250000 seeded_session = (Ok res, s1)
      /\ managers.add_rule (lit "gold") 0.5 0 s1 = (Ok (false, msg), s1))
  /\ (exists res s1 msg,
        managers.remove_rule (lit "premium") seeded_session = (Ok res, s1)
        /\ managers.remove_rule (lit "premium") s1 = (Ok (false, msg), s1)).
Proof.
  assert (Hu : unique_keys managers.default_rules) by concrete_unique_keys.
  split.
  - exact (proj1 (repeated_mutation_fails seeded_session managers.default_rules
                    (lit "gold") eq_refl Hu) 0.08 250000%Z 0.5 0%Z).
  - exact (proj2 (repeated_mutation_fails seeded_session managers.default_rules
                    (lit "premium") eq_refl Hu)).
Defined.

Lemma listed_name_is_removable_witness :
  managers.remove_rule (lit "enterprise") seeded_session
    = (Ok (true, managers.msg_removed (lit "enterprise")),
       {| commission_rules :=
            Some (dict_del (lit "enterprise") managers.default_rules) |})
  /\ managers.remove_rule (lit "premium") boundary_session
     = (Ok (false, managers.msg_last_rule), boundary_session).
Proof.
  split.
  - apply (listed_name_is_removable seeded_session managers.default_rules
             [lit "standard"; lit "premium"; lit "enterprise"]
             (lit "enterprise")); [reflexivity | reflexivity |].
    simpl. tauto.
  - apply (listed_name_is_removable boundary_session boundary_rules
             [lit "premium"] (lit "premium")); [reflexivity | reflexivity |].
    simpl. tauto.
Defined.

Lemma constructor_then_ops_invariant_witness :
  exists rules',
    (managers.__init__ ;;;
     run_ops [AddRule (lit "gold") 0.08 250000; AddRule (lit " ") 0.01 0;
              RemoveRule (lit "standard")]) fresh_session
      = (Ok tt, {| commission_rules := Some rules' |})
    /\ policy_invariant rules'
    /\ no_blank_key rules'.
Proof.
  apply (constructor_then_ops_invariant fresh_session).
  intros rules H. discriminate H.
Defined.

Lemma metrics_of_concatenation_witness :
  exists m,
    analyzers.calculate_metrics (fold_right add 0) (fun _ => 0)
      ([deal (lit "standard") (-10) 0.2 5] ++ [deal (lit "gold") 50000 0.05 2500])
      seeded_session = (Ok m, seeded_session)
    /\ flagged_count m = 4%nat
    /\ total_deals m = 2%nat.
Proof.
  exact (metrics_of_concatenation (fold_right add 0) (fun _ => 0) seeded_session
           [deal (lit "standard") (-10) 0.2 5]
           [deal (lit "gold") 50000 0.05 2500] _ _ eq_refl eq_refl).
Defined.

Lemma flagged_count_bound_witness :
  exists m,
    analyzers.calculate_metrics (fold_right add 0) (fun _ => 0)
      [deal (lit "standard") (-10) 0.2 5] seeded_session
      = (Ok m, seeded_session)
    /\ flagged_count m <= 3 * total_deals m.
Proof.
  eexists. split; [reflexivity|].
  exact (flagged_count_bound (fold_right add 0) (fun _ => 0) seeded_session
           seeded_session [deal (lit "standard") (-10) 0.2 5] _ eq_refl).
Defined.

Lemma metrics_of_permutation_witness :
  exists m',
    analyzers.calculate_metrics (fold_right add 0) (fun _ => 0)
      [deal (lit "gold") 50000 0.05 2500; deal (lit "standard") (-10) 0.2 5]
      seeded_session = (Ok m', seeded_session)
    /\ flagged_count m' = 4%nat
    /\ total_deals m' = 2%nat.
Proof.
  exact (metrics_of_permutation (fold_right add 0) (fun _ => 0) seeded_session
           [deal (lit "standard") (-10) 0.2 5; deal (lit "gold") 50000 0.05 2500]
           [deal (lit "gold") 50000 0.05 2500; deal (lit "standard") (-10) 0.2 5]
           _ (perm_swap _ _ []) eq_refl).
Defined.

Lemma metrics_outcomes_witness :
  exists m,
    analyzers.calculate_metrics (fold_right add 0) (fun _ => 0)
      [deal (lit "gold") 50000 0.05 2500] seeded_session
    = (Ok m, seeded_session).
Proof.
  apply (proj2 (proj2 (metrics_outcomes (fold_right add 0) (fun _ => 0)
                         seeded_session managers.default_rules
                         [deal (lit "gold") 50000 0.05 2500] eq_refl))).
  intros r [<- | []]. eexists. reflexivity.
Defined.

Lemma metrics_without_policy_set_witness :
  analyzers.calculate_metrics (fold_right add 0) (fun _ => 0)
    [deal (lit "gold") 50000 0.05 2500] fresh_session
  = (Raise AttributeError, fresh_session).
Proof.
  exact (metrics_without_policy_set (fold_right add 0) (fun _ => 0)
           fresh_session [deal (lit "gold") 50000 0.05 2500] eq_refl).
Defined.

Lemma validation_tab_matches_metrics_witness :
  exists t,
    tabs.render_validation_tab
      [deal (lit "standard") (-10) 0.2 5; deal (lit "gold") 50000 0.05 2500]
      seeded_session = (Ok t, seeded_session).
Proof.
  apply (proj2 (proj1 (validation_tab_matches_metrics (fold_right add 0)
                         (fun _ => 0) seeded_session
                         [deal (lit "standard") (-10) 0.2 5;
                          deal (lit "gold") 50000 0.05 2500]))).
  eexists. reflexivity.
Defined.

Lemma nan_record_passes_witness :
  validators.validate (deal (lit "premium") nan nan 1000000) seeded_session
    = (Ok [], seeded_session).
Proof.
  exact (proj1 (proj2 (proj2 (nan_record_passes seeded_session
                                managers.default_rules
                                (deal (lit "premium") nan nan 1000000)
                                {| rate := 0.07; threshold := 100000 |} 100000
                                eq_refl eq_refl eq_refl))
                  eq_refl eq_refl)).
Defined.

Lemma unconvertible_threshold_breaks_validation_witness :
  exists s1,
    managers.add_rule (lit "gold") 0.08 (2 ^ 1024) seeded_session
      = (Ok (true, managers.msg_added (lit "gold")), s1)
    /\ validators.validate (deal (lit "gold") 50000 0.05 2500) s1
       = (Raise OverflowError, s1).
Proof.
  destruct (unconvertible_threshold_breaks_validation seeded_session
              managers.default_rules (lit "gold") 0.08 (2 ^ 1024)
              eq_refl eq_refl eq_refl)
    as (s1 & Hadd & Hval & _); [vm_compute; reflexivity|].
  exists s1. split; [exact Hadd|]. apply Hval. reflexivity.
Defined.

Lemma add_rule_order_independent_witness :
  exists ra rb,
    run_ops [AddRule (lit "gold") 0.08 250000; AddRule (lit " gold ") 0.09 1]
      seeded_session = (Ok tt, {| commission_rules := Some ra |})
    /\ run_ops [AddRule (lit " gold ") 0.09 1; AddRule (lit "gold") 0.08 250000]
      seeded_session = (Ok tt, {| commission_rules := Some rb |})
    /\ (forall k, dict_get k ra = dict_get k rb)
    /\ keys ra = keys managers.default_rules ++ [lit "gold"; lit " gold "]
    /\ keys rb = keys managers.default_rules ++ [lit " gold "; lit "gold"].
Proof.
  apply (add_rule_order_independent seeded_session managers.default_rules
           (lit "gold") (lit " gold ") 0.08 0.09 250000 1);
    try reflexivity; discriminate.
Defined.

Lemma validate_after_remove_rule_witness :
  validators.validate (deal (lit "premium") 120000 0.07 8400)
    (snd (managers.remove_rule (lit "premium") seeded_session))
  = (Ok [lit "Unknown product tier: premium"],
     snd (managers.remove_rule (lit "premium") seeded_session)).
Proof.
  assert (Hu : unique_keys managers.default_rules) by concrete_unique_keys.
  apply (proj1 (validate_after_remove_rule seeded_session managers.default_rules
                  (lit "premium") (managers.msg_removed (lit "premium")) _
                  eq_refl Hu eq_refl)).
  reflexivity.
Defined.

Lemma validate_after_add_rule_witness :
  validators.validate (deal (lit "gold") 50000 0.08 4000) seeded_session
    = (Ok [lit "Unknown product tier: gold"], seeded_session)
  /\ validators.validate (deal (lit "gold") 50000 0.08 4000)
       (snd (managers.add_rule (lit "gold") 0.08 250000 seeded_session))
     = (Ok [], snd (managers.add_rule (lit "gold") 0.08 250000 seeded_session)).
Proof.
  apply (proj1 (validate_after_add_rule seeded_session managers.default_rules
                  (lit "gold") 0.08 250000 250000
                  (managers.msg_added (lit "gold")) _
                  eq_refl eq_refl eq_refl)).
  reflexivity.
Defined.
